(** * MedAI service (app.py): a shallow embedding of the Flask views and
      of the module-level start-up code, with the properties of its
      specification.

    Python values are modelled as the views see them: [str] as a
    sequence of Unicode code points, JSON documents as [pyval], the
    effects of a view (logging, calls into the Gemini SDK, the request
    parser) as a trace of [event]s written by a small exception/writer
    monad [M]. Whatever the external libraries decide (the environment
    variable, the SDK constructor, the parser, the completion call, the
    clock) is an input of the model. *)

From Stdlib Require Import List NArith ZArith String Ascii Bool Lia.
From Stdlib Require Import Floats.SpecFloat.
Import ListNotations.

Set Warnings "-register-all".

Open Scope string_scope.
Open Scope list_scope.

(** ** Python strings *)

(** A Python [str] is a sequence of code points; slicing and [len] count
    code points. *)
Definition str := list N.

(** The code points of an ASCII literal of the source. *)
Definition lit (s : string) : str := map N_of_ascii (list_ascii_of_string s).

Fixpoint str_eqb (a b : str) : bool :=
  match a, b with
  | [], [] => true
  | x :: a', y :: b' => N.eqb x y && str_eqb a' b'
  | _, _ => false
  end.

(** [s[:n]] for a non-negative literal [n]. *)
Definition slice_to (n : nat) (s : str) : str := firstn n s.

(** [str.isspace] on one code point (CPython's [_PyUnicode_IsWhitespace]). *)
Definition is_whitespace (c : N) : bool :=
  ((9 <=? c) && (c <=? 13) || (28 <=? c) && (c <=? 32)
   || (c =? 133) || (c =? 160) || (c =? 5760)
   || (8192 <=? c) && (c <=? 8202)
   || (c =? 8232) || (c =? 8233) || (c =? 8239) || (c =? 8287)
   || (c =? 12288))%N.

Fixpoint lstrip (s : str) : str :=
  match s with
  | c :: s' => if is_whitespace c then lstrip s' else s
  | [] => []
  end.

Definition rstrip (s : str) : str := rev (lstrip (rev s)).

(** [s.strip()] with no argument: whitespace removed at both ends. *)
Definition strip (s : str) : str := rstrip (lstrip s).

(** ** Python values that a JSON document decodes to, and that [jsonify]
       encodes *)

Inductive pyval :=
| PyNone
| PyBool (b : bool)
| PyInt (z : Z)
| PyFloat (f : spec_float)
| PyStr (s : str)
| PyList (items : list pyval)
| PyDict (items : list (str * pyval)).

(** Truth value of an object, as tested by [if not x]. *)
Definition truthy (v : pyval) : bool :=
  match v with
  | PyNone => false
  | PyBool b => b
  | PyInt z => negb (Z.eqb z 0)
  | PyFloat (S754_zero _) => false
  | PyFloat _ => true
  | PyStr [] | PyList [] | PyDict [] => false
  | PyStr _ | PyList _ | PyDict _ => true
  end.

(** [type(v).__name__], as it appears in an AttributeError. *)
Definition type_name (v : pyval) : str :=
  match v with
  | PyNone => lit "NoneType"
  | PyBool _ => lit "bool"
  | PyInt _ => lit "int"
  | PyFloat _ => lit "float"
  | PyStr _ => lit "str"
  | PyList _ => lit "list"
  | PyDict _ => lit "dict"
  end.

(** Lookup in a dict given by its items. *)
Fixpoint dict_lookup (d : list (str * pyval)) (k : str) : option pyval :=
  match d with
  | [] => None
  | (k', v) :: d' => if str_eqb k' k then Some v else dict_lookup d' k
  end.

(** A binary64 literal of the source, by mantissa and exponent. *)
Definition binary64 (m : positive) (e : Z) : spec_float := S754_finite false m e.

(** ** Exceptions, effects and the monad of a view *)

(** An instance of a subclass of [Exception]; [exn_str] is [str(e)]. *)
Record exn := Exception { exn_class : string; exn_str : str }.

Definition AttributeError (v : pyval) (attr : string) : exn :=
  Exception "AttributeError"
    (lit "'" ++ type_name v ++ lit "' object has no attribute '" ++ lit attr ++ lit "'").

Inductive outcome (A : Type) :=
| Return (a : A)
| Raise (e : exn).
Arguments Return {A} a.
Arguments Raise {A} e.

Inductive level := INFO | WARNING | ERROR.

Record GenerationConfig := {
  max_output_tokens : Z;
  temperature : spec_float
}.

Inductive event :=
| Log (lv : level) (msg : str)            (* logger.info / warning / error *)
| Configure (api_key : str)               (* genai.configure(api_key=...) *)
| NewModel (name : str)                   (* genai.GenerativeModel(name) *)
| GetJson                                 (* request.get_json() *)
| Generate (prompt : str) (cfg : GenerationConfig). (* model.generate_content *)

(** A computation yields a value or raises, and leaves a trace. *)
Definition M (A : Type) : Type := outcome A * list event.

Definition ret {A} (a : A) : M A := (Return a, []).

Definition raise {A} (e : exn) : M A := (Raise e, []).

Definition bind {A B} (m : M A) (f : A -> M B) : M B :=
  match m with
  | (Return a, t) => let (r, t') := f a in (r, t ++ t')
  | (Raise e, t) => (Raise e, t)
  end.

(** [try: m except Exception as e: h e] *)
Definition try_except {A} (m : M A) (h : exn -> M A) : M A :=
  match m with
  | (Return a, t) => (Return a, t)
  | (Raise e, t) => let (r, t') := h e in (r, t ++ t')
  end.

(** The computation [m] run after the events [t]. *)
Definition after {A} (t : list event) (m : M A) : M A := (fst m, t ++ snd m).

Definition emit (ev : event) : M unit := (Return tt, [ev]).

(** An external call: its event, then what the library did. *)
Definition call {A} (ev : event) (r : outcome A) : M A := (r, [ev]).

(** Reading an attribute or property: no event, it may raise. *)
Definition eval {A} (r : outcome A) : M A := (r, []).

Definition logger (lv : level) (msg : str) : M unit := emit (Log lv msg).

Declare Scope py_scope.
Delimit Scope py_scope with py.
Notation "x <- m ;; k" := (bind m (fun x => k))
  (at level 61, m at next level, right associativity) : py_scope.
Notation "m ;;; k" := (bind m (fun _ => k))
  (at level 61, right associativity) : py_scope.
Open Scope py_scope.

(** ** The Gemini SDK objects *)

(** What [response.text] does on a completion result: the property
    returns the text or raises (a blocked or empty candidate). *)
Record GenerateContentResponse := {
  text : outcome str
}.

(** A [genai.GenerativeModel] instance. Its attribute [model_name] may
    be missing ([None]), raise on access, or hold a name; [str(model)]
    and [model.generate_content(prompt, generation_config=cfg)] are
    whatever the SDK does. The completion call returns an object, or
    Python's [None] (the [None] of the option). Instances are truthy.
    [generate_content] stands for what the call does during the request
    at hand; no property compares the replies of two requests. *)
Record GenerativeModel := {
  model_name : option (outcome str);
  model_str : outcome str;
  generate_content : str -> GenerationConfig -> outcome (option GenerateContentResponse)
}.

(** ** Module-level start-up code (lines 27-60) *)

(** What the process finds when it starts: the environment variable and
    the behaviour of the SDK constructor on each model name. *)
Record os_environ := {
  getenv_GEMINI_API_KEY : option str;
  genai_GenerativeModel : str -> outcome GenerativeModel
}.

(** The two module globals the views read. *)
Record globals := {
  GEMINI_API_KEY : option str;
  model : option GenerativeModel
}.

(** [if not GEMINI_API_KEY: ... else: ...]: the key is falsy when it is
    [None] or the empty string. *)
Definition configure_gemini (k : option str) : M unit :=
  match k with
  | None | Some [] =>
      logger ERROR (lit "GEMINI_API_KEY not found in environment variables")
  | Some key =>
      emit (Configure key) ;;;
      logger INFO (lit "Gemini API configured successfully")
  end.

Definition models_to_try : list str :=
  [ lit "gemini-2.0-flash-exp";
    lit "gemini-1.5-pro";
    lit "gemini-1.5-flash";
    lit "gemini-pro" ].

(** U+2705, the check mark of the success log lines. *)
Definition check_mark : str := [9989%N].

(** The [for] loop over the candidates: the first constructor that
    returns ends the loop ([break]); one that raises is logged with the
    first 100 characters of the error and the loop goes on. The result
    is the value of [model] after the loop. *)
Fixpoint try_models (os : os_environ) (names : list str) : M (option GenerativeModel) :=
  match names with
  | [] => ret None
  | name :: rest =>
      r <- try_except
             (logger INFO (lit "Trying model: " ++ name) ;;;
              m <- call (NewModel name) (genai_GenerativeModel os name) ;;
              logger INFO (check_mark ++ lit " Successfully initialized model: " ++ name) ;;;
              ret (Some m))
             (fun e =>
              logger WARNING (lit "Model " ++ name ++ lit " not available: "
                              ++ slice_to 100 (exn_str e)) ;;;
              ret None) ;;
      match r with
      | Some m => ret (Some m)
      | None => try_models os rest
      end
  end.

(** The outer [try] around the loop: an exception escaping it resets
    [model] to [None]. *)
Definition init_model (os : os_environ) : M (option GenerativeModel) :=
  try_except
    (m <- try_models os models_to_try ;;
     match m with
     | Some _ => ret m
     | None => logger ERROR (lit "No available models found!") ;;; ret m
     end)
    (fun e =>
     logger ERROR (lit "Error during model initialization: " ++ exn_str e) ;;;
     ret None).

(** The module body: read the key, configure the client when the key is
    there, then initialize the model. *)
Definition startup (os : os_environ) : M globals :=
  let key := getenv_GEMINI_API_KEY os in
  configure_gemini key ;;;
  m <- init_model os ;;
  ret {| GEMINI_API_KEY := key; model := m |}.

(** ** The AI Doctor view (lines 79-194) *)

(** U+26A0 U+FE0F, the warning sign of the disclaimer. *)
Definition warning_sign : str := [9888%N; 65039%N].

Definition newline : str := [10%N].

(** A multi-line literal, given line by line. *)
Fixpoint join_lines (ls : list str) : str :=
  match ls with
  | [] => []
  | [l] => l
  | l :: rest => l ++ newline ++ join_lines rest
  end.

Definition system_prompt : str := join_lines [
    lit "You are MedAI Pro, an AI health assistant. Provide CONCISE, PRECISE health advice.";
    [];
    lit "RESPONSE FORMAT (IMPORTANT - Follow exactly):";
    lit "1. **Symptoms Analysis**: 2-3 sentences explaining what the symptoms indicate";
    lit "2. **Possible Causes**: List 2-3 most likely causes (bullet points)";
    lit "3. **Suggested Home Care**: 2-3 quick remedies";
    lit "4. **Suggested Medicines**: ";
    lit "   - Fever: Paracetamol/Ibuprofen";
    lit "   - Cough: Dextromethorphan/Honey";
    lit "   - Headache: Aspirin/Ibuprofen";
    lit "   - Nausea: Ginger/Peppermint";
    lit "   - Diarrhea: Loperamide/Electrolytes";
    lit "   - Pain: Ibuprofen/Paracetamol";
    lit "5. **When to See Doctor**: If symptoms persist >7 days or worsen";
    [];
    lit "CRITICAL RULES:";
    lit "- Be VERY BRIEF (max 150 words total)";
    lit "- Use bullet points, not paragraphs";
    lit "- Include specific medicine names and dosages if applicable";
    lit "- NO lengthy explanations";
    lit "- Focus on practical advice only";
    lit "- Always add: " ++ warning_sign ++ lit " This is NOT professional medical advice";
    [];
    lit "Example response format:";
    lit "**Symptoms Analysis**: You have gastroenteritis. Common viral infection causing vomiting.";
    [];
    lit "**Likely Causes**:";
    lit "- Viral gastroenteritis";
    lit "- Food poisoning";
    lit "- Bacterial infection";
    [];
    lit "**Home Care**:";
    lit "- Rest and stay hydrated";
    lit "- Eat light foods (rice, toast)";
    lit "- Ginger tea helps";
    [];
    lit "**Medicines**:";
    lit "- Metoclopramide 10mg (anti-nausea) - 3 times daily";
    lit "- Electrolyte solutions for hydration";
    lit "- Ibuprofen 400mg if fever present";
    [];
    lit "**When to See Doctor**:";
    lit "- Vomiting >24 hours";
    lit "- Blood in vomit";
    lit "- Severe abdominal pain";
    [];
    warning_sign ++ lit " This is NOT professional medical advice. Consult a doctor for diagnosis." ].

(** What one request brings: the module globals fixed at start-up, the
    HTTP method, what [request.get_json()] does on this request, and
    the clock. Called with its default arguments, Flask's parser
    returns the decoded document, and raises werkzeug's BadRequest when
    the body does not parse; for a request without a JSON payload it
    returns [None] or raises, depending on the release. *)
Record world := {
  module_globals : globals;
  request_method : str;
  request_get_json : outcome pyval;
  datetime_now_isoformat : str
}.

(** [jsonify(body), status] *)
Definition response : Type := pyval * Z.

Definition jsonify (items : list (string * pyval)) : pyval :=
  PyDict (map (fun kv => (lit (fst kv), snd kv)) items).

(** [data.get(key, default)]: only a dict has the method. *)
Definition py_get (data : pyval) (key : string) (default : pyval) : M pyval :=
  match data with
  | PyDict d =>
      match dict_lookup d (lit key) with
      | Some v => ret v
      | None => ret default
      end
  | _ => raise (AttributeError data "get")
  end.

(** [v.strip()]: only a str has the method. *)
Definition py_strip (v : pyval) : M str :=
  match v with
  | PyStr s => ret (strip s)
  | _ => raise (AttributeError v "strip")
  end.

(** [f"{system_prompt}\n\nUser Symptom: {user_input}\n\nProvide ..."] *)
Definition full_message (user_input : str) : str :=
  system_prompt ++ newline ++ newline ++ lit "User Symptom: " ++ user_input
  ++ newline ++ newline
  ++ lit "Provide response in the exact format above. Be VERY BRIEF and CONCISE.".

(** [GenerationConfig(max_output_tokens=500, temperature=0.7)]; the
    binary64 nearest to 0.7 is 0x1.6666666666666p-1. *)
Definition generation_config : GenerationConfig :=
  {| max_output_tokens := 500; temperature := binary64 6305039478318694 (-53) |}.

Definition empty_response : response :=
  (jsonify [ ("error", PyStr (lit "AI model returned empty response. Try again."));
             ("success", PyBool false) ], 500%Z).

(** The body of the inner [try] (lines 158-178). [response and
    response.text] is false when the call returned [None] or the text is
    empty; reading [response.text] may itself raise. *)
Definition completion_try (w : world) (m : GenerativeModel) (user_input : str) : M response :=
  response <- call (Generate (full_message user_input) generation_config)
                   (generate_content m (full_message user_input) generation_config) ;;
  match response with
  | None =>
      logger ERROR (lit "Model returned empty response") ;;;
      ret empty_response
  | Some r =>
      t <- eval (text r) ;;
      match t with
      | [] =>
          logger ERROR (lit "Model returned empty response") ;;;
          ret empty_response
      | _ =>
          logger INFO (check_mark ++ lit " Successfully generated response from Gemini") ;;;
          ret (jsonify [ ("success", PyBool true);
                         ("response", PyStr t);
                         ("timestamp", PyStr (datetime_now_isoformat w)) ], 200%Z)
      end
  end.

(** [except Exception as gemini_error] (lines 180-187). *)
Definition completion_except (gemini_error : exn) : M response :=
  let error_msg := exn_str gemini_error in
  logger ERROR (lit "Gemini API error: " ++ error_msg) ;;;
  ret (jsonify [ ("error", PyStr (lit "API Error: " ++ slice_to 100 error_msg));
                 ("success", PyBool false) ], 500%Z).

(** The body of the outer [try] (lines 86-187). *)
Definition ai_doctor_try (w : world) : M response :=
  data <- call GetJson (request_get_json w) ;;
  if negb (truthy data)
  then ret (jsonify [ ("error", PyStr (lit "No JSON data provided")) ], 400%Z)
  else
    message <- py_get data "message" (PyStr []) ;;
    user_input <- py_strip message ;;
    if negb (truthy (PyStr user_input))
    then ret (jsonify [ ("error", PyStr (lit "Message cannot be empty")) ], 400%Z)
    else
      match model (module_globals w) with
      | None =>
          ret (jsonify [ ("error", PyStr (lit "AI model not initialized. Check your API key and try restarting."));
                         ("success", PyBool false) ], 500%Z)
      | Some m =>
          logger INFO (lit "Processing query: " ++ slice_to 50 user_input ++ lit "...") ;;;
          try_except (completion_try w m user_input) completion_except
      end.

(** [except Exception as e] (lines 189-194). *)
Definition ai_doctor_except (e : exn) : M response :=
  logger ERROR (lit "Error in ai_doctor endpoint: " ++ exn_str e) ;;;
  ret (jsonify [ ("error", PyStr (lit "Server error: " ++ slice_to 100 (exn_str e)));
                 ("success", PyBool false) ], 500%Z).

(** The view registered for POST and OPTIONS on /api/ai-doctor. *)
Definition ai_doctor (w : world) : M response :=
  if str_eqb (request_method w) (lit "OPTIONS")
  then ret (jsonify [ ("status", PyStr (lit "ok")) ], 200%Z)
  else try_except (ai_doctor_try w) ai_doctor_except.

(** ** The health check (lines 62-77) *)

(** [model.model_name if hasattr(model, 'model_name') else str(model)]
    under the bare [except], which falls back to "Initialized". *)
Definition describe_model (m : GenerativeModel) : M str :=
  try_except
    (match model_name m with
     | Some a => eval a
     | None => eval (model_str m)
     end)
    (fun _ => ret (lit "Initialized")).

(** [GEMINI_API_KEY is not None] *)
Definition is_not_None (k : option str) : bool :=
  match k with
  | Some _ => true
  | None => false
  end.

Definition health_check (w : world) : M response :=
  name <- match model (module_globals w) with
          | Some m => describe_model m
          | None => ret (lit "Unknown")
          end ;;
  ret (jsonify [ ("status", PyStr (lit "ok"));
                 ("timestamp", PyStr (datetime_now_isoformat w));
                 ("gemini_configured", PyBool (is_not_None (GEMINI_API_KEY (module_globals w))));
                 ("model", PyStr name) ], 200%Z).

(** ** The static endpoints and the error handlers (lines 196-228) *)

Definition specialist (id : Z) (name specialty : string) (rating : spec_float) : pyval :=
  jsonify [ ("id", PyInt id); ("name", PyStr (lit name));
            ("specialty", PyStr (lit specialty)); ("rating", PyFloat rating) ].

(** The ratings 4.8, 4.7, 4.9, 4.6 are the binary64 values
    0x1.3333333333333p+2, 0x1.2cccccccccccdp+2, 0x1.399999999999ap+2 and
    0x1.2666666666666p+2. *)
Definition specialists : list pyval :=
  [ specialist 1 "Dr. Rajesh Kumar" "Cardiology" (binary64 5404319552844595 (-50));
    specialist 2 "Dr. Priya Sharma" "Dermatology" (binary64 5291729562160333 (-50));
    specialist 3 "Dr. Amit Patel" "Neurology" (binary64 5516909543528858 (-50));
    specialist 4 "Dr. Anjali Singh" "Pediatrics" (binary64 5179139571476070 (-50));
    specialist 5 "Dr. Vikram Gupta" "Orthopedics" (binary64 5404319552844595 (-50)) ].

Definition get_specialists (w : world) : M response :=
  ret (jsonify [ ("success", PyBool true); ("specialists", PyList specialists) ], 200%Z).

Definition tips : list pyval :=
  [ PyStr (lit "Stay hydrated - drink at least 8 glasses of water daily");
    PyStr (lit "Exercise regularly - aim for 30 minutes of physical activity");
    PyStr (lit "Get adequate sleep - 7-9 hours per night");
    PyStr (lit "Eat balanced meals with fruits and vegetables");
    PyStr (lit "Manage stress through meditation or yoga") ].

Definition get_health_tips (w : world) : M response :=
  ret (jsonify [ ("success", PyBool true); ("tips", PyList tips) ], 200%Z).

Definition not_found (error : exn) : M response :=
  ret (jsonify [ ("error", PyStr (lit "Endpoint not found")) ], 404%Z).

Definition internal_error (error : exn) : M response :=
  logger ERROR (lit "Internal error: " ++ exn_str error) ;;;
  ret (jsonify [ ("error", PyStr (lit "Internal server error")) ], 500%Z).

(** ** Reading a response and a trace *)

(** The field of a JSON body, when the body is an object having it. *)
Definition field (body : pyval) (key : string) : option pyval :=
  match body with
  | PyDict d => dict_lookup d (lit key)
  | _ => None
  end.

(** The [id] fields of a list of objects. *)
Definition ids (l : list pyval) : list (option pyval) :=
  map (fun v => field v "id") l.

Definition is_Configure (ev : event) : bool :=
  match ev with
  | Configure _ => true
  | _ => false
  end.

(** The computation leaves no call of [genai.configure] in its trace. *)
Definition never_configures {A} (m : M A) : Prop :=
  existsb is_Configure (snd m) = false.

Definition is_NewModel (ev : event) : bool :=
  match ev with
  | NewModel _ => true
  | _ => false
  end.

(** The SDK constructor refuses the model name. *)
Definition raises_on (os : os_environ) (name : str) : Prop :=
  exists e, genai_GenerativeModel os name = Raise e.

(** A request whose body is absent or does not parse, as the view meets
    it: [request.get_json()] delivers no document, it returns [None] or
    raises. *)
Definition no_json_document (w : world) : Prop :=
  request_get_json w = Return PyNone \/ exists e, request_get_json w = Raise e.

(** ** Sample inputs *)

(** A model object whose completion call does [reply]. *)
Definition sample_model (reply : outcome (option GenerateContentResponse)) : GenerativeModel :=
  {| model_name := Some (Return (lit "models/gemini-2.0-flash-exp"));
     model_str := Return (lit "genai.GenerativeModel(model_name='models/gemini-2.0-flash-exp')");
     generate_content := fun _ _ => reply |}.

Definition sample_reply : str := lit "**Symptoms Analysis**: Tension headache.".

Definition answering_model : GenerativeModel :=
  sample_model (Return (Some {| text := Return sample_reply |})).

(** A request with the given method, globals and parser result. *)
Definition sample_request (method : string) (g : globals) (body : outcome pyval) : world :=
  {| module_globals := g;
     request_method := lit method;
     request_get_json := body;
     datetime_now_isoformat := lit "2025-01-01T12:00:00.000000" |}.

Definition no_model : globals := {| GEMINI_API_KEY := None; model := None |}.

Definition with_model (m : GenerativeModel) : globals :=
  {| GEMINI_API_KEY := Some (lit "AIza-sample-key"); model := Some m |}.

(** The body [{"message": v}]. *)
Definition message_body (v : pyval) : outcome pyval :=
  Return (PyDict [ (lit "message", v) ]).

(** werkzeug's BadRequest, as Flask raises it on a body that does not
    parse. *)
Definition BadRequest : exn :=
  Exception "BadRequest"
    (lit "400 Bad Request: The browser (or proxy) sent a request that this server could not understand.").

(** An SDK error whose text has 130 characters. *)
Definition long_error : exn :=
  Exception "ResourceExhausted" (lit "429 Quota exceeded for model: " ++ repeat 120%N 100).

(** No key in the environment, an SDK whose constructor accepts every
    name. *)
Definition keyless_environ : os_environ :=
  {| getenv_GEMINI_API_KEY := None;
     genai_GenerativeModel := fun _ => Return answering_model |}.

(** The key set to the empty string, an SDK that knows no model. *)
Definition empty_key_environ : os_environ :=
  {| getenv_GEMINI_API_KEY := Some [];
     genai_GenerativeModel := fun _ => Raise (Exception "NotFound" (lit "404 model not found")) |}.

(** ** Reading a request and a trace: further observations *)

(** What [data.get] returns for the message on the items of an object:
    the field, or the empty string when there is none. *)
Definition message_of (d : list (str * pyval)) : pyval :=
  match dict_lookup d (lit "message") with
  | Some v => v
  | None => PyStr []
  end.

(** The model names passed to the SDK constructor, in order. *)
Fixpoint attempted (t : list event) : list str :=
  match t with
  | [] => []
  | NewModel name :: t' => name :: attempted t'
  | _ :: t' => attempted t'
  end.

(** The completion calls of a trace, in order. *)
Fixpoint generate_calls (t : list event) : list (str * GenerationConfig) :=
  match t with
  | [] => []
  | Generate prompt cfg :: t' => (prompt, cfg) :: generate_calls t'
  | _ :: t' => generate_calls t'
  end.

(** The API keys passed to [genai.configure], in order. *)
Fixpoint configured_keys (t : list event) : list str :=
  match t with
  | [] => []
  | Configure k :: t' => k :: configured_keys t'
  | _ :: t' => configured_keys t'
  end.

(** The ways the AI Doctor view answers a request that is not a
    preflight, each with the trace it leaves: one constructor per
    [return] of the source, in the order of the source; the last three
    are the ways into the outer handler. *)
Inductive ai_doctor_path (w : world) : M response -> Prop :=
| path_no_data (v : pyval) :
    request_get_json w = Return v ->
    truthy v = false ->
    ai_doctor_path w
      (Return (jsonify [ ("error", PyStr (lit "No JSON data provided")) ], 400%Z), [GetJson])
| path_blank (d : list (str * pyval)) (s : str) :
    request_get_json w = Return (PyDict d) ->
    d <> [] ->
    message_of d = PyStr s ->
    strip s = [] ->
    ai_doctor_path w
      (Return (jsonify [ ("error", PyStr (lit "Message cannot be empty")) ], 400%Z), [GetJson])
| path_no_model (d : list (str * pyval)) (s : str) :
    request_get_json w = Return (PyDict d) ->
    message_of d = PyStr s ->
    strip s <> [] ->
    model (module_globals w) = None ->
    ai_doctor_path w
      (Return (jsonify [ ("error", PyStr (lit "AI model not initialized. Check your API key and try restarting."));
                         ("success", PyBool false) ], 500%Z), [GetJson])
| path_success (d : list (str * pyval)) (s : str) (m : GenerativeModel)
               (r : GenerateContentResponse) (t : str) :
    request_get_json w = Return (PyDict d) ->
    message_of d = PyStr s ->
    strip s <> [] ->
    model (module_globals w) = Some m ->
    generate_content m (full_message (strip s)) generation_config = Return (Some r) ->
    text r = Return t ->
    t <> [] ->
    ai_doctor_path w
      (Return (jsonify [ ("success", PyBool true);
                         ("response", PyStr t);
                         ("timestamp", PyStr (datetime_now_isoformat w)) ], 200%Z),
       [ GetJson;
         Log INFO (lit "Processing query: " ++ slice_to 50 (strip s) ++ lit "...");
         Generate (full_message (strip s)) generation_config;
         Log INFO (check_mark ++ lit " Successfully generated response from Gemini") ])
| path_empty (d : list (str * pyval)) (s : str) (m : GenerativeModel) :
    request_get_json w = Return (PyDict d) ->
    message_of d = PyStr s ->
    strip s <> [] ->
    model (module_globals w) = Some m ->
    generate_content m (full_message (strip s)) generation_config = Return None
    \/ (exists r, generate_content m (full_message (strip s)) generation_config = Return (Some r)
                  /\ text r = Return []) ->
    ai_doctor_path w
      (Return (jsonify [ ("error", PyStr (lit "AI model returned empty response. Try again."));
                         ("success", PyBool false) ], 500%Z),
       [ GetJson;
         Log INFO (lit "Processing query: " ++ slice_to 50 (strip s) ++ lit "...");
         Generate (full_message (strip s)) generation_config;
         Log ERROR (lit "Model returned empty response") ])
| path_api_error (d : list (str * pyval)) (s : str) (m : GenerativeModel) (e : exn) :
    request_get_json w = Return (PyDict d) ->
    message_of d = PyStr s ->
    strip s <> [] ->
    model (module_globals w) = Some m ->
    generate_content m (full_message (strip s)) generation_config = Raise e
    \/ (exists r, generate_content m (full_message (strip s)) generation_config = Return (Some r)
                  /\ text r = Raise e) ->
    ai_doctor_path w
      (Return (jsonify [ ("error", PyStr (lit "API Error: " ++ slice_to 100 (exn_str e)));
                         ("success", PyBool false) ], 500%Z),
       [ GetJson;
         Log INFO (lit "Processing query: " ++ slice_to 50 (strip s) ++ lit "...");
         Generate (full_message (strip s)) generation_config;
         Log ERROR (lit "Gemini API error: " ++ exn_str e) ])
| path_parser_error (e : exn) :
    request_get_json w = Raise e ->
    ai_doctor_path w
      (Return (jsonify [ ("error", PyStr (lit "Server error: " ++ slice_to 100 (exn_str e)));
                         ("success", PyBool false) ], 500%Z),
       [ GetJson; Log ERROR (lit "Error in ai_doctor endpoint: " ++ exn_str e) ])
| path_not_an_object (v : pyval) :
    request_get_json w = Return v ->
    truthy v = true ->
    (forall d, v <> PyDict d) ->
    ai_doctor_path w
      (Return (jsonify [ ("error", PyStr (lit "Server error: " ++ exn_str (AttributeError v "get")));
                         ("success", PyBool false) ], 500%Z),
       [ GetJson;
         Log ERROR (lit "Error in ai_doctor endpoint: " ++ exn_str (AttributeError v "get")) ])
| path_not_a_string (d : list (str * pyval)) (v : pyval) :
    request_get_json w = Return (PyDict d) ->
    d <> [] ->
    message_of d = v ->
    (forall s, v <> PyStr s) ->
    ai_doctor_path w
      (Return (jsonify [ ("error", PyStr (lit "Server error: " ++ exn_str (AttributeError v "strip")));
                         ("success", PyBool false) ], 500%Z),
       [ GetJson;
         Log ERROR (lit "Error in ai_doctor endpoint: " ++ exn_str (AttributeError v "strip")) ]).

(** An SDK that refuses the two Gemini 2.0 and 1.5-pro names and
    accepts the later candidates. *)
Definition fallback_environ : os_environ :=
  {| getenv_GEMINI_API_KEY := Some (lit "AIza-sample-key");
     genai_GenerativeModel := fun name =>
       if str_eqb name (lit "gemini-1.5-flash") || str_eqb name (lit "gemini-pro")
       then Return answering_model
       else Raise (Exception "NotFound" (lit "404 model not found")) |}.

(** * Properties *)

(** ** Strings *)

Lemma lstrip_blank (s : str) : forallb is_whitespace s = true -> lstrip s = [].
Proof.
  induction s as [|c s IH]; simpl; [reflexivity|].
  intros H. apply andb_prop in H. destruct H as [Hc Hs].
  rewrite Hc. exact (IH Hs).
Qed.

Lemma strip_blank (s : str) : forallb is_whitespace s = true -> strip s = [].
Proof.
  intros H. unfold strip. rewrite (lstrip_blank s H). reflexivity.
Qed.

Lemma slice_to_length (n : nat) (s : str) :
  List.length (slice_to n s) = Nat.min n (List.length s).
Proof. unfold slice_to. apply length_firstn. Qed.

Lemma slice_to_short (n : nat) (s : str) :
  List.length s <= n -> slice_to n s = s.
Proof. unfold slice_to. apply firstn_all2. Qed.

Lemma slice_to_prefix (n : nat) (s : str) : exists rest, s = slice_to n s ++ rest.
Proof. exists (skipn n s). unfold slice_to. symmetry. apply firstn_skipn. Qed.

Lemma post_is_not_options : str_eqb (lit "POST") (lit "OPTIONS") = false.
Proof. reflexivity. Qed.

(** ** The monad *)

Lemma bind_return {A B} (a : A) (t : list event) (f : A -> M B) :
  bind (Return a, t) f = after t (f a).
Proof. unfold bind, after. destruct (f a); reflexivity. Qed.

Lemma bind_ret {A B} (a : A) (f : A -> M B) : bind (ret a) f = f a.
Proof. unfold ret. rewrite bind_return. unfold after. destruct (f a); reflexivity. Qed.

Lemma bind_raise {A B} (e : exn) (t : list event) (f : A -> M B) :
  bind (Raise e, t) f = (Raise e, t).
Proof. reflexivity. Qed.

Lemma try_except_return {A} (a : A) (t : list event) (h : exn -> M A) :
  try_except (Return a, t) h = (Return a, t).
Proof. reflexivity. Qed.

Lemma try_except_raise {A} (e : exn) (t : list event) (h : exn -> M A) :
  try_except (Raise e, t) h = after t (h e).
Proof. unfold try_except, after. destruct (h e); reflexivity. Qed.

Lemma try_except_after {A} (t : list event) (m : M A) (h : exn -> M A) :
  try_except (after t m) h = after t (try_except m h).
Proof.
  destruct m as [[a|e] t']; unfold after, try_except; simpl; [reflexivity|].
  destruct (h e) as [r t'']. simpl. rewrite app_assoc. reflexivity.
Qed.

Lemma fst_after {A} (t : list event) (m : M A) : fst (after t m) = fst m.
Proof. reflexivity. Qed.

Lemma fst_try_except {A} (m : M A) (h : exn -> M A) :
  fst (try_except m h) =
  match fst m with
  | Return a => Return a
  | Raise e => fst (h e)
  end.
Proof. destruct m as [[a|e] t]; simpl; [reflexivity|]. destruct (h e); reflexivity. Qed.

Lemma never_configures_bind {A B} (m : M A) (f : A -> M B) :
  never_configures m -> (forall a, never_configures (f a)) -> never_configures (bind m f).
Proof.
  unfold never_configures. destruct m as [[a|e] t]; cbn [snd bind]; intros Hm Hf; [|exact Hm].
  specialize (Hf a). destruct (f a) as [r t']. cbn [snd] in *.
  rewrite existsb_app, Hm, Hf. reflexivity.
Qed.

Lemma never_configures_try {A} (m : M A) (h : exn -> M A) :
  never_configures m -> (forall e, never_configures (h e)) ->
  never_configures (try_except m h).
Proof.
  unfold never_configures. destruct m as [[a|e] t]; cbn [snd try_except]; intros Hm Hh;
    [exact Hm|].
  specialize (Hh e). destruct (h e) as [r t']. cbn [snd] in *.
  rewrite existsb_app, Hm, Hh. reflexivity.
Qed.

Ltac quiet :=
  repeat first
    [ reflexivity
    | apply never_configures_bind; [|intros ?]
    | apply never_configures_try; [|intros ?]
    | match goal with
      | |- never_configures (if ?b then _ else _) => destruct b
      | |- never_configures (match ?x with _ => _ end) => destruct x
      end ].

(** ** Truth values *)

Lemma lookup_some_truthy (d : list (str * pyval)) (k : str) (v : pyval) :
  dict_lookup d k = Some v -> truthy (PyDict d) = true.
Proof. destruct d; [discriminate | reflexivity]. Qed.

Lemma truthy_dict_cons (d : list (str * pyval)) : d <> [] -> truthy (PyDict d) = true.
Proof. destruct d; [congruence | reflexivity]. Qed.

Lemma truthy_str (s : str) : s <> [] -> truthy (PyStr s) = true.
Proof. destruct s; [congruence | reflexivity]. Qed.

(** The text of the AttributeError raised by [.strip()] is shorter than
    100 characters for every type of value. *)
Lemma strip_error_fits (v : pyval) :
  slice_to 100 (exn_str (AttributeError v "strip")) = exn_str (AttributeError v "strip").
Proof. destruct v; reflexivity. Qed.

(** ** The steps of the AI Doctor view *)

Lemma ai_doctor_post (w : world) :
  request_method w = lit "POST" ->
  ai_doctor w = try_except (ai_doctor_try w) ai_doctor_except.
Proof.
  intros H. unfold ai_doctor. rewrite H, post_is_not_options. reflexivity.
Qed.

Lemma ai_doctor_try_no_data (w : world) (v : pyval) :
  request_get_json w = Return v -> truthy v = false ->
  ai_doctor_try w
  = (Return (jsonify [ ("error", PyStr (lit "No JSON data provided")) ], 400%Z), [GetJson]).
Proof.
  intros Hj Hv. unfold ai_doctor_try, call. rewrite Hj, bind_return, Hv. reflexivity.
Qed.

Lemma ai_doctor_try_parser_raises (w : world) (e : exn) :
  request_get_json w = Raise e -> ai_doctor_try w = (Raise e, [GetJson]).
Proof.
  intros Hj. unfold ai_doctor_try, call. rewrite Hj. reflexivity.
Qed.

(** A request that passes both validations reaches the model check. *)
Lemma ai_doctor_try_valid (w : world) (d : list (str * pyval)) (s : str) :
  request_get_json w = Return (PyDict d) ->
  dict_lookup d (lit "message") = Some (PyStr s) ->
  strip s <> [] ->
  ai_doctor_try w =
  match model (module_globals w) with
  | None =>
      (Return (jsonify [ ("error", PyStr (lit "AI model not initialized. Check your API key and try restarting."));
                         ("success", PyBool false) ], 500%Z), [GetJson])
  | Some m =>
      after [GetJson; Log INFO (lit "Processing query: " ++ slice_to 50 (strip s) ++ lit "...")]
            (try_except (completion_try w m (strip s)) completion_except)
  end.
Proof.
  intros Hj Hl Hs. unfold ai_doctor_try, call.
  rewrite Hj, bind_return, (lookup_some_truthy _ _ _ Hl). cbn [negb].
  unfold py_get. rewrite Hl, bind_ret. unfold py_strip. rewrite bind_ret, (truthy_str _ Hs).
  cbn [negb].
  destruct (model (module_globals w)) as [m|]; [|reflexivity].
  unfold logger, emit. rewrite bind_return.
  destruct (try_except _ _) as [r t]. reflexivity.
Qed.

(** What the inner [try] does when the call answers with text. *)
Lemma completion_try_text (w : world) (m : GenerativeModel) (u : str)
      (r : GenerateContentResponse) (t : str) :
  generate_content m (full_message u) generation_config = Return (Some r) ->
  text r = Return t ->
  t <> [] ->
  completion_try w m u
  = (Return (jsonify [ ("success", PyBool true);
                       ("response", PyStr t);
                       ("timestamp", PyStr (datetime_now_isoformat w)) ], 200%Z),
     [ Generate (full_message u) generation_config;
       Log INFO (check_mark ++ lit " Successfully generated response from Gemini") ]).
Proof.
  intros Hg Ht Hne. unfold completion_try, call. rewrite Hg, bind_return.
  unfold eval. rewrite Ht, bind_return.
  destruct t as [|c t]; [congruence|]. reflexivity.
Qed.

(** The inner [try] raises exactly when the completion call raises or
    reading the text of its result raises. *)
Lemma completion_try_raises (w : world) (m : GenerativeModel) (u : str) (e : exn) :
  fst (completion_try w m u) = Raise e <->
  generate_content m (full_message u) generation_config = Raise e
  \/ exists r, generate_content m (full_message u) generation_config = Return (Some r)
               /\ text r = Raise e.
Proof.
  unfold completion_try, call.
  destruct (generate_content m (full_message u) generation_config) as [[r|]|e'].
  - rewrite bind_return, fst_after. unfold eval.
    destruct (text r) as [t|e''] eqn:Ht.
    + rewrite bind_return, fst_after. split.
      * destruct t; discriminate.
      * intros [H | [r' [H1 H2]]]; [discriminate|]. congruence.
    + rewrite bind_raise. cbn [fst]. split.
      * intros H. right. exists r. split; [reflexivity | congruence].
      * intros [H | [r' [H1 H2]]]; [discriminate|]. congruence.
  - rewrite bind_return, fst_after. split; [discriminate|].
    intros [H | [r' [H1 H2]]]; discriminate.
  - rewrite bind_raise. cbn [fst]. split.
    + intros H. left. congruence.
    + intros [H | [r' [H1 H2]]]; [congruence | discriminate].
Qed.

(** Both handlers answer: no exception leaves the view. *)
Lemma ai_doctor_returns (w : world) : exists r, fst (ai_doctor w) = Return r.
Proof.
  unfold ai_doctor. destruct (str_eqb _ _); [eexists; reflexivity|].
  rewrite fst_try_except. destruct (fst (ai_doctor_try w)) as [r|e].
  - exists r. reflexivity.
  - eexists. reflexivity.
Qed.

(** The inner handler answers whatever the completion call does. *)
Lemma completion_block_returns (w : world) (m : GenerativeModel) (u : str) :
  exists r, fst (try_except (completion_try w m u) completion_except) = Return r.
Proof.
  rewrite fst_try_except. destruct (fst (completion_try w m u)) as [r|e].
  - exists r. reflexivity.
  - eexists. reflexivity.
Qed.

(** The body of the outer [try] raises in three ways only: the parser
    raises, the document is truthy but not an object, or the message is
    not a string. *)
Lemma ai_doctor_try_raises (w : world) (e : exn) :
  fst (ai_doctor_try w) = Raise e <->
  request_get_json w = Raise e
  \/ (exists data, request_get_json w = Return data /\ truthy data = true
                   /\ (forall d, data <> PyDict d) /\ e = AttributeError data "get")
  \/ (exists d v, request_get_json w = Return (PyDict d)
                  /\ dict_lookup d (lit "message") = Some v
                  /\ (forall s, v <> PyStr s) /\ e = AttributeError v "strip").
Proof.
  unfold ai_doctor_try, call.
  destruct (request_get_json w) as [data|e'] eqn:Hj.
  2:{ rewrite bind_raise. cbn [fst]. split.
      - intros H. left. congruence.
      - intros [H | [[x [H _]] | [d [v [H _]]]]];
          [injection H as ->; reflexivity | discriminate | discriminate]. }
  rewrite bind_return, fst_after.
  destruct (truthy data) eqn:Ht; cbn [negb].
  2:{ split; [discriminate|].
      intros [H | [[x [H [Hx _]]] | [d [v [H [Hl _]]]]]]; [discriminate| |].
      - congruence.
      - injection H as ->. rewrite (lookup_some_truthy _ _ _ Hl) in Ht. discriminate. }
  assert (Hnd : (forall d0, data <> PyDict d0) ->
            py_get data "message" (PyStr []) = raise (AttributeError data "get")).
  { intros Hd. destruct data; try reflexivity. exfalso. apply (Hd items). reflexivity. }
  destruct data as [ | b | z | f | s0 | l | d ];
    try (rewrite Hnd by (intros; discriminate); unfold raise; rewrite bind_raise; cbn [fst]; split;
         [ intros H; right; left; eexists;
           split; [reflexivity | split; [exact Ht | split; [intros; discriminate | congruence]]]
         | intros [H | [[x [H [_ [_ He]]]] | [d [v [H _]]]]];
           [ discriminate | injection H as <-; subst e; reflexivity | discriminate ] ]).
  unfold py_get.
  destruct (dict_lookup d (lit "message")) as [v|] eqn:Hl; rewrite bind_ret.
  - destruct v as [ | b | z | f | s0 | l | d' ];
      try (unfold py_strip, raise; rewrite bind_raise; cbn [fst]; split;
           [ intros H; right; right; exists d; eexists;
             split; [reflexivity | split; [exact Hl | split; [intros; discriminate | congruence]]]
           | intros [H | [[x [H [_ [Hx _]]]] | [d0 [v [H [Hl0 [_ He]]]]]]];
             [ discriminate
             | exfalso; apply (Hx d); injection H as <-; reflexivity
             | injection H as <-; rewrite Hl in Hl0; injection Hl0 as <-; subst e; reflexivity ] ]).
    unfold py_strip. rewrite bind_ret. split.
    + intros H. exfalso. destruct (truthy (PyStr (strip s0))); cbn [negb] in H;
        [|discriminate].
      destruct (model (module_globals w)) as [m|]; [|discriminate].
      unfold logger, emit in H. rewrite bind_return, fst_after in H.
      destruct (completion_block_returns w m (strip s0)) as [r Hr]. congruence.
    + intros [H | [[x [H [_ [Hx _]]]] | [d0 [v [H [Hl0 [Hv _]]]]]]].
      * discriminate.
      * exfalso. apply (Hx d). congruence.
      * exfalso. apply (Hv s0). congruence.
  - unfold py_strip. rewrite bind_ret. split.
    + intros H. exfalso. cbn in H. discriminate.
    + intros [H | [[x [H [_ [Hx _]]]] | [d0 [v [H [Hl0 [Hv _]]]]]]].
      * discriminate.
      * exfalso. apply (Hx d). congruence.
      * congruence.
Qed.

(** No view configures the client. *)
Lemma ai_doctor_never_configures (w : world) : never_configures (ai_doctor w).
Proof.
  unfold ai_doctor, ai_doctor_try, ai_doctor_except, completion_try, completion_except,
    py_get, py_strip.
  quiet.
Qed.

(** ** The AI Doctor view: preflight and validation *)

(** C7. An OPTIONS request to /api/ai-doctor is answered 200 with the
    body [{status: "ok"}] and an empty trace: the parser is not called,
    no prompt reaches the SDK, nothing is logged; the answer depends on
    nothing else in the request or in the globals. *)
Theorem options_is_acknowledged (w : world) :
  request_method w = lit "OPTIONS" ->
  ai_doctor w = (Return (jsonify [ ("status", PyStr (lit "ok")) ], 200%Z), []).
Proof.
  intros H. unfold ai_doctor. rewrite H. reflexivity.
Qed.

Lemma options_is_acknowledged_witness :
  ai_doctor (sample_request "OPTIONS" (with_model answering_model) (Raise BadRequest))
  = (Return (jsonify [ ("status", PyStr (lit "ok")) ], 200%Z), []).
Proof.
  apply (options_is_acknowledged
           (sample_request "OPTIONS" (with_model answering_model) (Raise BadRequest))).
  reflexivity.
Defined.

(** The code's own branch for a request without JSON data (lines
    88-89): when [request.get_json()] returns [None], or any other
    falsy document, the view answers 400 "No JSON data provided" and
    does nothing else. *)
Lemma falsy_document_is_400 (w : world) (v : pyval) :
  request_method w = lit "POST" ->
  request_get_json w = Return v ->
  truthy v = false ->
  ai_doctor w
  = (Return (jsonify [ ("error", PyStr (lit "No JSON data provided")) ], 400%Z), [GetJson]).
Proof.
  intros Hm Hj Hv. rewrite (ai_doctor_post w Hm), (ai_doctor_try_no_data w v Hj Hv).
  reflexivity.
Qed.

(** C3. The code misses its own 400 branch on a body that does not
    parse: [request.get_json()] is called with its default arguments
    inside the outer [try], so the parser raises BadRequest, the outer
    handler catches it, and the view answers 500 "Server error: 400 Bad
    Request: ..." where the claim, and the branch of lines 88-89, say
    400 "No JSON data provided". *)
Lemma malformed_body_is_500 :
  request_method (sample_request "POST" (with_model answering_model) (Raise BadRequest))
  = lit "POST"
  /\ no_json_document (sample_request "POST" (with_model answering_model) (Raise BadRequest))
  /\ fst (ai_doctor (sample_request "POST" (with_model answering_model) (Raise BadRequest)))
     = Return (jsonify [ ("error", PyStr (lit "Server error: 400 Bad Request: The browser (or proxy) sent a request that this server could not understand."));
                         ("success", PyBool false) ], 500%Z)
  /\ fst (ai_doctor (sample_request "POST" (with_model answering_model) (Raise BadRequest)))
     <> Return (jsonify [ ("error", PyStr (lit "No JSON data provided")) ], 400%Z).
Proof.
  split; [reflexivity|]. split; [right; exists BadRequest; reflexivity|].
  split; [vm_compute; reflexivity | vm_compute; discriminate].
Qed.

(** C5, as amended. On a POST request whose JSON body is a non-empty
    object in which the message field is missing, is the empty string,
    or holds only whitespace, the view answers 400 "Message cannot be
    empty", whatever the model handle, and never calls the SDK. *)
Theorem blank_message_is_400 (w : world) (d : list (str * pyval)) :
  request_method w = lit "POST" ->
  request_get_json w = Return (PyDict d) ->
  d <> [] ->
  dict_lookup d (lit "message") = None
  \/ dict_lookup d (lit "message") = Some (PyStr [])
  \/ (exists s, dict_lookup d (lit "message") = Some (PyStr s)
                /\ forallb is_whitespace s = true) ->
  ai_doctor w
  = (Return (jsonify [ ("error", PyStr (lit "Message cannot be empty")) ], 400%Z), [GetJson]).
Proof.
  intros Hm Hj Hd Hmsg. rewrite (ai_doctor_post w Hm).
  assert (Hs : exists s, py_get (PyDict d) "message" (PyStr []) = ret (PyStr s) /\ strip s = []).
  { unfold py_get. destruct Hmsg as [H | [H | [s [H Hb]]]]; rewrite H.
    - exists []. split; reflexivity.
    - exists []. split; reflexivity.
    - exists s. split; [reflexivity | apply strip_blank; exact Hb]. }
  destruct Hs as [s [Hg Hs]].
  unfold ai_doctor_try, call.
  rewrite Hj, bind_return, (truthy_dict_cons d Hd). cbn [negb].
  rewrite Hg, bind_ret. unfold py_strip. rewrite bind_ret, Hs. reflexivity.
Qed.

Lemma blank_message_is_400_witness :
  ai_doctor (sample_request "POST" (with_model answering_model)
               (message_body (PyStr (lit "   "))))
  = (Return (jsonify [ ("error", PyStr (lit "Message cannot be empty")) ], 400%Z), [GetJson]).
Proof.
  apply (blank_message_is_400 _ [ (lit "message", PyStr (lit "   ")) ]).
  - reflexivity.
  - reflexivity.
  - discriminate.
  - right. right. exists (lit "   "). split; reflexivity.
Defined.

(** C5 as stated fails: the body [{}] is present and has no message
    field, yet the view answers "No JSON data provided", because the
    empty object is falsy. *)
Lemma empty_object_is_no_data :
  request_method (sample_request "POST" (with_model answering_model) (Return (PyDict [])))
  = lit "POST"
  /\ dict_lookup [] (lit "message") = None
  /\ ai_doctor (sample_request "POST" (with_model answering_model) (Return (PyDict [])))
     = (Return (jsonify [ ("error", PyStr (lit "No JSON data provided")) ], 400%Z), [GetJson])
  /\ fst (ai_doctor (sample_request "POST" (with_model answering_model) (Return (PyDict []))))
     <> Return (jsonify [ ("error", PyStr (lit "Message cannot be empty")) ], 400%Z).
Proof.
  repeat split. vm_compute. discriminate.
Qed.

(** ** The AI Doctor view: model check and completion *)

(** C1, as amended. On a POST request that passes validation (the body
    is a JSON object whose message is a string, non-empty once
    trimmed), when no model handle is available the view answers 500
    with the "AI model not initialized" message and calls nothing but
    the parser. *)
Theorem no_model_is_500_after_validation (w : world) (d : list (str * pyval)) (s : str) :
  request_method w = lit "POST" ->
  request_get_json w = Return (PyDict d) ->
  dict_lookup d (lit "message") = Some (PyStr s) ->
  strip s <> [] ->
  model (module_globals w) = None ->
  ai_doctor w
  = (Return (jsonify [ ("error", PyStr (lit "AI model not initialized. Check your API key and try restarting."));
                       ("success", PyBool false) ], 500%Z), [GetJson]).
Proof.
  intros Hm Hj Hl Hs Hnone.
  rewrite (ai_doctor_post w Hm), (ai_doctor_try_valid w d s Hj Hl Hs), Hnone.
  reflexivity.
Qed.

Lemma no_model_is_500_after_validation_witness :
  ai_doctor (sample_request "POST" no_model (message_body (PyStr (lit " headache "))))
  = (Return (jsonify [ ("error", PyStr (lit "AI model not initialized. Check your API key and try restarting."));
                       ("success", PyBool false) ], 500%Z), [GetJson]).
Proof.
  apply (no_model_is_500_after_validation _ [ (lit "message", PyStr (lit " headache ")) ]
           (lit " headache ")).
  - reflexivity.
  - reflexivity.
  - reflexivity.
  - vm_compute. discriminate.
  - reflexivity.
Defined.

(** C1 as stated fails: with no model handle, a POST request whose
    message is empty is answered 400 "Message cannot be empty"; the
    validation comes before the model check. *)
Lemma no_model_blank_message_is_400 :
  request_method (sample_request "POST" no_model (message_body (PyStr []))) = lit "POST"
  /\ model (module_globals (sample_request "POST" no_model (message_body (PyStr [])))) = None
  /\ fst (ai_doctor (sample_request "POST" no_model (message_body (PyStr []))))
     = Return (jsonify [ ("error", PyStr (lit "Message cannot be empty")) ], 400%Z)
  /\ fst (ai_doctor (sample_request "POST" no_model (message_body (PyStr []))))
     <> Return (jsonify [ ("error", PyStr (lit "AI model not initialized. Check your API key and try restarting."));
                          ("success", PyBool false) ], 500%Z).
Proof.
  repeat split. vm_compute. discriminate.
Qed.

(** C4. On a POST request whose message is non-empty once trimmed, with
    a model handle whose completion call (on the prompt built from the
    trimmed message, with the fixed generation parameters) returns
    non-empty text, the view answers 200 with [success: true], the text
    as it came, and the timestamp; the SDK is called once. *)
Theorem completion_success (w : world) (d : list (str * pyval)) (s : str)
        (m : GenerativeModel) (r : GenerateContentResponse) (t : str) :
  request_method w = lit "POST" ->
  request_get_json w = Return (PyDict d) ->
  dict_lookup d (lit "message") = Some (PyStr s) ->
  strip s <> [] ->
  model (module_globals w) = Some m ->
  generate_content m (full_message (strip s)) generation_config = Return (Some r) ->
  text r = Return t ->
  t <> [] ->
  ai_doctor w
  = (Return (jsonify [ ("success", PyBool true);
                       ("response", PyStr t);
                       ("timestamp", PyStr (datetime_now_isoformat w)) ], 200%Z),
     [ GetJson;
       Log INFO (lit "Processing query: " ++ slice_to 50 (strip s) ++ lit "...");
       Generate (full_message (strip s)) generation_config;
       Log INFO (check_mark ++ lit " Successfully generated response from Gemini") ]).
Proof.
  intros Hm Hj Hl Hs Hmod Hg Ht Hne.
  rewrite (ai_doctor_post w Hm), (ai_doctor_try_valid w d s Hj Hl Hs), Hmod.
  rewrite (completion_try_text w m (strip s) r t Hg Ht Hne).
  reflexivity.
Qed.

Lemma completion_success_witness :
  fst (ai_doctor (sample_request "POST" (with_model answering_model)
                    (message_body (PyStr (lit " headache ")))))
  = Return (jsonify [ ("success", PyBool true);
                      ("response", PyStr sample_reply);
                      ("timestamp", PyStr (lit "2025-01-01T12:00:00.000000")) ], 200%Z).
Proof.
  rewrite (completion_success _ [ (lit "message", PyStr (lit " headache ")) ]
             (lit " headache ") answering_model {| text := Return sample_reply |} sample_reply).
  - reflexivity.
  - reflexivity.
  - reflexivity.
  - reflexivity.
  - vm_compute. discriminate.
  - reflexivity.
  - reflexivity.
  - reflexivity.
  - vm_compute. discriminate.
Defined.

(** C9. On a POST request whose JSON object maps message to a value
    that is not a string, [.strip()] raises an AttributeError, the outer
    handler catches it, and the view answers 500 with "Server error: "
    followed by the error text (which fits in 100 characters), not a 400
    validation error. *)
Theorem non_string_message_is_500 (w : world) (d : list (str * pyval)) (v : pyval) :
  request_method w = lit "POST" ->
  request_get_json w = Return (PyDict d) ->
  dict_lookup d (lit "message") = Some v ->
  (forall s, v <> PyStr s) ->
  ai_doctor w
  = (Return (jsonify [ ("error", PyStr (lit "Server error: " ++ lit "'" ++ type_name v
                                        ++ lit "' object has no attribute 'strip'"));
                       ("success", PyBool false) ], 500%Z),
     [ GetJson;
       Log ERROR (lit "Error in ai_doctor endpoint: " ++ lit "'" ++ type_name v
                  ++ lit "' object has no attribute 'strip'") ]).
Proof.
  intros Hm Hj Hl Hv. rewrite (ai_doctor_post w Hm).
  unfold ai_doctor_try, call.
  rewrite Hj, bind_return, (lookup_some_truthy _ _ _ Hl). cbn [negb].
  unfold py_get. rewrite Hl, bind_ret.
  assert (Hs : py_strip v = raise (AttributeError v "strip")).
  { destruct v; try reflexivity. exfalso. apply (Hv s). reflexivity. }
  rewrite Hs. unfold raise. rewrite bind_raise. unfold after. cbn [fst snd app].
  rewrite try_except_raise. unfold ai_doctor_except, logger, emit.
  rewrite bind_return, strip_error_fits. reflexivity.
Qed.

Lemma non_string_message_is_500_witness :
  ai_doctor (sample_request "POST" (with_model answering_model) (message_body (PyInt 42)))
  = (Return (jsonify [ ("error", PyStr (lit "Server error: 'int' object has no attribute 'strip'"));
                       ("success", PyBool false) ], 500%Z),
     [ GetJson;
       Log ERROR (lit "Error in ai_doctor endpoint: 'int' object has no attribute 'strip'") ]).
Proof.
  apply (non_string_message_is_500 _ [ (lit "message", PyInt 42) ] (PyInt 42)).
  - reflexivity.
  - reflexivity.
  - reflexivity.
  - discriminate.
Defined.

(** ** The AI Doctor view: what the client sees of an exception *)

(** C6. On a POST request, an exception [e] that leaves the body of the
    outer [try] is answered 500 with "Server error: " followed by
    [str(e)[:100]], and an exception that leaves the inner [try] around
    the completion call is answered 500 with "API Error: " followed by
    [str(e)[:100]]. The excerpt has at most 100 characters, has exactly
    100 when the text is longer, is the whole text when that has at most
    100, and is always a prefix of the text. *)
Theorem exception_text_is_truncated (w : world) (e : exn) :
  request_method w = lit "POST" ->
  (fst (ai_doctor_try w) = Raise e ->
     fst (ai_doctor w)
     = Return (jsonify [ ("error", PyStr (lit "Server error: " ++ slice_to 100 (exn_str e)));
                         ("success", PyBool false) ], 500%Z))
  /\ (forall d s m,
        request_get_json w = Return (PyDict d) ->
        dict_lookup d (lit "message") = Some (PyStr s) ->
        strip s <> [] ->
        model (module_globals w) = Some m ->
        fst (completion_try w m (strip s)) = Raise e ->
        fst (ai_doctor w)
        = Return (jsonify [ ("error", PyStr (lit "API Error: " ++ slice_to 100 (exn_str e)));
                            ("success", PyBool false) ], 500%Z))
  /\ List.length (slice_to 100 (exn_str e)) <= 100
  /\ (100 < List.length (exn_str e) -> List.length (slice_to 100 (exn_str e)) = 100)
  /\ (List.length (exn_str e) <= 100 -> slice_to 100 (exn_str e) = exn_str e)
  /\ exists rest, exn_str e = slice_to 100 (exn_str e) ++ rest.
Proof.
  intros Hm. rewrite (ai_doctor_post w Hm). repeat split.
  - intros Hr. rewrite fst_try_except, Hr. reflexivity.
  - intros d s m Hj Hl Hs Hmod Hr.
    rewrite (ai_doctor_try_valid w d s Hj Hl Hs), Hmod, try_except_after, fst_after.
    rewrite !fst_try_except, Hr. reflexivity.
  - rewrite slice_to_length. lia.
  - intros Hlen. rewrite slice_to_length. lia.
  - apply slice_to_short.
  - apply slice_to_prefix.
Qed.

Lemma exception_text_is_truncated_witness :
  fst (ai_doctor (sample_request "POST" (with_model (sample_model (Raise long_error)))
                    (message_body (PyStr (lit "fever")))))
  = Return (jsonify [ ("error", PyStr (lit "API Error: 429 Quota exceeded for model: "
                                        ++ repeat 120%N 70));
                      ("success", PyBool false) ], 500%Z).
Proof.
  apply (proj1 (proj2 (exception_text_is_truncated
                         (sample_request "POST" (with_model (sample_model (Raise long_error)))
                            (message_body (PyStr (lit "fever"))))
                         long_error eq_refl))
           [ (lit "message", PyStr (lit "fever")) ] (lit "fever")
           (sample_model (Raise long_error))).
  - reflexivity.
  - reflexivity.
  - vm_compute. discriminate.
  - reflexivity.
  - reflexivity.
Defined.

(** ** The specialists endpoint *)

(** C8. Every request to /api/specialists is answered 200 with
    [success: true] and the same list of exactly five entries, whose ids
    are 1 to 5 in this order; nothing is called or logged. *)
Theorem specialists_are_fixed (w : world) :
  exists l,
    get_specialists w
    = (Return (jsonify [ ("success", PyBool true); ("specialists", PyList l) ], 200%Z), [])
    /\ List.length l = 5
    /\ ids l = [ Some (PyInt 1); Some (PyInt 2); Some (PyInt 3); Some (PyInt 4); Some (PyInt 5) ]
    /\ forall w', get_specialists w' = get_specialists w.
Proof.
  exists specialists. repeat split.
Qed.

(** ** Start-up *)

Lemma try_models_cons_ok (os : os_environ) (name : str) (rest : list str) (m : GenerativeModel) :
  genai_GenerativeModel os name = Return m ->
  try_models os (name :: rest)
  = (Return (Some m),
     [ Log INFO (lit "Trying model: " ++ name);
       NewModel name;
       Log INFO (check_mark ++ lit " Successfully initialized model: " ++ name) ]).
Proof.
  intros H. cbn [try_models]. unfold logger, emit, call. rewrite H. reflexivity.
Qed.

Lemma try_models_cons_fail (os : os_environ) (name : str) (rest : list str) (e : exn) :
  genai_GenerativeModel os name = Raise e ->
  try_models os (name :: rest)
  = after [ Log INFO (lit "Trying model: " ++ name);
            NewModel name;
            Log WARNING (lit "Model " ++ name ++ lit " not available: "
                         ++ slice_to 100 (exn_str e)) ]
          (try_models os rest).
Proof.
  intros H. cbn [try_models]. unfold logger, emit, call. rewrite H.
  unfold after. destruct (try_models os rest) as [r t]. reflexivity.
Qed.

(** The loop never raises, never configures the client, and leaves
    [model] unset exactly when every candidate's constructor raised;
    otherwise [model] is what the first accepting constructor returned. *)
Lemma try_models_returns (os : os_environ) (names : list str) :
  exists m t,
    try_models os names = (Return m, t)
    /\ existsb is_Configure t = false
    /\ match m with
       | None => Forall (raises_on os) names
       | Some h => exists pre name post,
                     names = pre ++ name :: post
                     /\ Forall (raises_on os) pre
                     /\ genai_GenerativeModel os name = Return h
       end.
Proof.
  induction names as [|name rest IH].
  - exists None, []. repeat split. constructor.
  - destruct (genai_GenerativeModel os name) as [h|e] eqn:Hn.
    + exists (Some h). eexists. split; [apply try_models_cons_ok; exact Hn|].
      split; [reflexivity|]. exists [], name, rest. repeat split; [constructor | exact Hn].
    + destruct IH as [m [t [Hrun [Hcfg Hm]]]].
      exists m. eexists. split.
      { rewrite (try_models_cons_fail os name rest e Hn), Hrun. reflexivity. }
      split; [exact Hcfg|].
      destruct m as [h|].
      * destruct Hm as [pre [n [post [Heq [Hpre Hh]]]]].
        exists (name :: pre), n, post. rewrite Heq. repeat split; [|exact Hh].
        constructor; [exists e; exact Hn | exact Hpre].
      * constructor; [exists e; exact Hn | exact Hm].
Qed.

Lemma try_models_first_event (os : os_environ) (name : str) (rest : list str) :
  In (NewModel name) (snd (try_models os (name :: rest))).
Proof.
  destruct (genai_GenerativeModel os name) as [h|e] eqn:Hn.
  - rewrite (try_models_cons_ok os name rest h Hn). simpl. tauto.
  - rewrite (try_models_cons_fail os name rest e Hn). simpl. tauto.
Qed.

(** The initialization block returns the loop's result; it logs an
    error when the loop found no model. *)
Lemma init_model_returns (os : os_environ) (m : option GenerativeModel) (t : list event) :
  try_models os models_to_try = (Return m, t) ->
  init_model os
  = (Return m,
     t ++ match m with
          | Some _ => []
          | None => [ Log ERROR (lit "No available models found!") ]
          end).
Proof.
  intros H. unfold init_model. rewrite H, bind_return.
  destruct m; reflexivity.
Qed.

Lemma startup_returns (os : os_environ) (m : option GenerativeModel) (t : list event) :
  try_models os models_to_try = (Return m, t) ->
  startup os
  = (Return {| GEMINI_API_KEY := getenv_GEMINI_API_KEY os; model := m |},
     snd (configure_gemini (getenv_GEMINI_API_KEY os))
     ++ t ++ match m with
             | Some _ => []
             | None => [ Log ERROR (lit "No available models found!") ]
             end).
Proof.
  intros H. unfold startup. rewrite (init_model_returns os m t H).
  destruct (getenv_GEMINI_API_KEY os) as [[|c k]|]; cbn [configure_gemini];
    unfold logger, emit; rewrite ?bind_return; unfold after; cbn [fst snd ret];
    rewrite ?app_nil_r; reflexivity.
Qed.

(** C2, as amended. When GEMINI_API_KEY is absent at process start, the
    client is not configured and the error is logged, but the candidate
    loop still runs: the first candidate name is attempted, and the
    model handle remains unset exactly when the constructor refuses
    every candidate. *)
Theorem absent_key_still_tries_models (os : os_environ) :
  getenv_GEMINI_API_KEY os = None ->
  exists m,
    fst (startup os) = Return {| GEMINI_API_KEY := None; model := m |}
    /\ (m = None <-> Forall (raises_on os) models_to_try)
    /\ existsb is_Configure (snd (startup os)) = false
    /\ In (Log ERROR (lit "GEMINI_API_KEY not found in environment variables"))
          (snd (startup os))
    /\ In (NewModel (lit "gemini-2.0-flash-exp")) (snd (startup os)).
Proof.
  intros Hkey.
  destruct (try_models_returns os models_to_try) as [m [t [Hrun [Hcfg Hm]]]].
  pose proof (try_models_first_event os (lit "gemini-2.0-flash-exp")
                [ lit "gemini-1.5-pro"; lit "gemini-1.5-flash"; lit "gemini-pro" ]) as Hfirst.
  change (In (NewModel (lit "gemini-2.0-flash-exp")) (snd (try_models os models_to_try)))
    in Hfirst.
  rewrite Hrun in Hfirst. cbn [snd] in Hfirst.
  exists m. rewrite (startup_returns os m t Hrun), Hkey. cbn [fst snd configure_gemini].
  split; [reflexivity|]. split; [|split; [|split]].
  - destruct m as [h|]; split; intros H; try discriminate; try reflexivity; try exact Hm.
    exfalso. destruct Hm as [pre [name [post [Heq [_ Hh]]]]].
    rewrite Forall_forall in H. destruct (H name) as [e He].
    + rewrite Heq. apply in_or_app. right. left. reflexivity.
    + congruence.
  - unfold logger, emit. cbn [snd app existsb is_Configure orb].
    rewrite existsb_app, Hcfg. destruct m; reflexivity.
  - left. reflexivity.
  - apply in_or_app. right. apply in_or_app. left. exact Hfirst.
Qed.

Lemma absent_key_still_tries_models_witness :
  exists m,
    fst (startup keyless_environ) = Return {| GEMINI_API_KEY := None; model := m |}
    /\ (m = None <-> Forall (raises_on keyless_environ) models_to_try)
    /\ existsb is_Configure (snd (startup keyless_environ)) = false
    /\ In (Log ERROR (lit "GEMINI_API_KEY not found in environment variables"))
          (snd (startup keyless_environ))
    /\ In (NewModel (lit "gemini-2.0-flash-exp")) (snd (startup keyless_environ)).
Proof.
  apply (absent_key_still_tries_models keyless_environ). reflexivity.
Defined.

(** C2 as stated fails: with no key in the environment and an SDK whose
    constructor accepts the first name, start-up attempts that name and
    sets the model handle. *)
Lemma absent_key_model_is_set :
  getenv_GEMINI_API_KEY keyless_environ = None
  /\ startup keyless_environ
     = (Return {| GEMINI_API_KEY := None; model := Some answering_model |},
        [ Log ERROR (lit "GEMINI_API_KEY not found in environment variables");
          Log INFO (lit "Trying model: gemini-2.0-flash-exp");
          NewModel (lit "gemini-2.0-flash-exp");
          Log INFO (check_mark ++ lit " Successfully initialized model: gemini-2.0-flash-exp") ])
  /\ existsb is_NewModel (snd (startup keyless_environ)) = true
  /\ model {| GEMINI_API_KEY := None; model := Some answering_model |} <> None.
Proof.
  split; [reflexivity|]. split; [vm_compute; reflexivity|].
  split; [vm_compute; reflexivity | discriminate].
Qed.

(** C10. When GEMINI_API_KEY is the empty string at process start, the
    client is never configured (not by the start-up code, which logs
    the missing-key error, nor by a later request) and yet every health
    check of that process reports [gemini_configured: true]. *)
Theorem empty_key_reported_configured (os : os_environ) :
  getenv_GEMINI_API_KEY os = Some [] ->
  exists g,
    fst (startup os) = Return g
    /\ existsb is_Configure (snd (startup os)) = false
    /\ In (Log ERROR (lit "GEMINI_API_KEY not found in environment variables"))
          (snd (startup os))
    /\ forall w, module_globals w = g ->
         never_configures (ai_doctor w)
         /\ exists name,
              health_check w
              = (Return (jsonify [ ("status", PyStr (lit "ok"));
                                   ("timestamp", PyStr (datetime_now_isoformat w));
                                   ("gemini_configured", PyBool true);
                                   ("model", PyStr name) ], 200%Z), []).
Proof.
  intros Hkey.
  destruct (try_models_returns os models_to_try) as [m [t [Hrun [Hcfg _]]]].
  exists {| GEMINI_API_KEY := Some []; model := m |}.
  rewrite (startup_returns os m t Hrun), Hkey. cbn [fst snd configure_gemini].
  split; [reflexivity|]. split; [|split].
  - unfold logger, emit. cbn [snd app existsb is_Configure orb].
    rewrite existsb_app, Hcfg. destruct m; reflexivity.
  - left. reflexivity.
  - intros w Hw. split; [apply ai_doctor_never_configures|].
    unfold health_check. rewrite Hw. cbn [model GEMINI_API_KEY is_not_None].
    destruct m as [h|].
    + unfold describe_model, eval.
      destruct (model_name h) as [[n|e]|].
      * exists n. reflexivity.
      * exists (lit "Initialized"). reflexivity.
      * destruct (model_str h) as [n|e].
        -- exists n. reflexivity.
        -- exists (lit "Initialized"). reflexivity.
    + exists (lit "Unknown"). reflexivity.
Qed.

Lemma empty_key_reported_configured_witness :
  exists g,
    fst (startup empty_key_environ) = Return g
    /\ existsb is_Configure (snd (startup empty_key_environ)) = false
    /\ In (Log ERROR (lit "GEMINI_API_KEY not found in environment variables"))
          (snd (startup empty_key_environ))
    /\ forall w, module_globals w = g ->
         never_configures (ai_doctor w)
         /\ exists name,
              health_check w
              = (Return (jsonify [ ("status", PyStr (lit "ok"));
                                   ("timestamp", PyStr (datetime_now_isoformat w));
                                   ("gemini_configured", PyBool true);
                                   ("model", PyStr name) ], 200%Z), []).
Proof.
  apply (empty_key_reported_configured empty_key_environ). reflexivity.
Defined.

(** * Further properties *)

(** ** Trimming *)

Lemma lstrip_app_blank (a s : str) :
  forallb is_whitespace a = true -> lstrip (a ++ s) = lstrip s.
Proof.
  induction a as [|c a IH]; simpl; [reflexivity|].
  intros H. apply andb_prop in H. destruct H as [Hc Ha]. rewrite Hc. exact (IH Ha).
Qed.

Lemma lstrip_head (s : str) (c : N) (r : str) :
  lstrip s = c :: r -> is_whitespace c = false.
Proof.
  induction s as [|x s IH]; simpl; [discriminate|].
  destruct (is_whitespace x) eqn:Hx; [exact IH|].
  intros H. injection H as <- _. exact Hx.
Qed.

Lemma lstrip_split (s : str) :
  exists a, s = a ++ lstrip s /\ forallb is_whitespace a = true.
Proof.
  induction s as [|x s [a [Hs Ha]]]; simpl.
  - exists []. split; reflexivity.
  - destruct (is_whitespace x) eqn:Hx.
    + exists (x :: a). simpl. rewrite Hx, Ha. split; [f_equal; exact Hs | reflexivity].
    + exists []. split; reflexivity.
Qed.

Lemma lstrip_nil (s : str) : lstrip s = [] <-> forallb is_whitespace s = true.
Proof.
  split; [|apply lstrip_blank].
  induction s as [|x s IH]; simpl; [reflexivity|].
  destruct (is_whitespace x); [exact IH | discriminate].
Qed.

Lemma lstrip_app_solid (s b : str) : lstrip s <> [] -> lstrip (s ++ b) = lstrip s ++ b.
Proof.
  induction s as [|x s IH]; simpl; [congruence|].
  destruct (is_whitespace x); [exact IH | reflexivity].
Qed.

Lemma forallb_rev (f : N -> bool) (s : str) : forallb f (rev s) = forallb f s.
Proof.
  induction s as [|x s IH]; simpl; [reflexivity|].
  rewrite forallb_app, IH. simpl. rewrite andb_true_r. apply andb_comm.
Qed.

Lemma rstrip_app_blank (s b : str) :
  forallb is_whitespace b = true -> rstrip (s ++ b) = rstrip s.
Proof.
  intros H. unfold rstrip. rewrite rev_app_distr, lstrip_app_blank; [reflexivity|].
  rewrite forallb_rev. exact H.
Qed.

Lemma rstrip_nil (s : str) : rstrip s = [] <-> forallb is_whitespace s = true.
Proof.
  unfold rstrip. rewrite <- (forallb_rev is_whitespace s), <- lstrip_nil.
  split; intros H.
  - apply (f_equal (@rev N)) in H. rewrite rev_involutive in H. exact H.
  - rewrite H. reflexivity.
Qed.

Lemma rstrip_split (s : str) :
  exists b, s = rstrip s ++ b /\ forallb is_whitespace b = true.
Proof.
  destruct (lstrip_split (rev s)) as [a [Hs Ha]].
  exists (rev a). split.
  - unfold rstrip. rewrite <- rev_app_distr, <- Hs, rev_involutive. reflexivity.
  - rewrite forallb_rev. exact Ha.
Qed.

Lemma rstrip_last (s r : str) (c : N) : rstrip s = r ++ [c] -> is_whitespace c = false.
Proof.
  unfold rstrip. intros H. apply (f_equal (@rev N)) in H.
  rewrite rev_involutive, rev_app_distr in H. simpl in H.
  exact (lstrip_head _ _ _ H).
Qed.

(** Trimming the left end of a string does not uncover whitespace at
    its head. *)
Lemma rstrip_head (s : str) (c : N) (r : str) :
  (forall c' r', s = c' :: r' -> is_whitespace c' = false) ->
  rstrip s = c :: r -> is_whitespace c = false.
Proof.
  intros Hs H. destruct (rstrip_split s) as [b [Hb _]].
  rewrite H in Hb. simpl in Hb. exact (Hs c (r ++ b) Hb).
Qed.

Lemma strip_nil (s : str) : strip s = [] <-> forallb is_whitespace s = true.
Proof.
  unfold strip. rewrite rstrip_nil. split; intros H.
  - destruct (lstrip s) as [|c r] eqn:Hl; [apply lstrip_nil; exact Hl|].
    simpl in H. rewrite (lstrip_head s c r Hl) in H. discriminate.
  - rewrite (lstrip_blank s H). reflexivity.
Qed.

Lemma strip_split (s : str) :
  exists a b, s = a ++ strip s ++ b
              /\ forallb is_whitespace a = true /\ forallb is_whitespace b = true.
Proof.
  destruct (lstrip_split s) as [a [Hs Ha]].
  destruct (rstrip_split (lstrip s)) as [b [Hl Hb]].
  exists a, b. unfold strip. rewrite <- Hl. repeat split; assumption.
Qed.

Lemma strip_first (s : str) (c : N) (r : str) : strip s = c :: r -> is_whitespace c = false.
Proof.
  unfold strip. apply rstrip_head. intros c' r'. apply lstrip_head.
Qed.

Lemma strip_last (s r : str) (c : N) : strip s = r ++ [c] -> is_whitespace c = false.
Proof. unfold strip. apply rstrip_last. Qed.

Lemma strip_pad (a s b : str) :
  forallb is_whitespace a = true -> forallb is_whitespace b = true ->
  strip (a ++ s ++ b) = strip s.
Proof.
  intros Ha Hb. unfold strip. rewrite (lstrip_app_blank a _ Ha).
  destruct (lstrip s) as [|c r] eqn:Hl.
  - assert (Hs : forallb is_whitespace (s ++ b) = true).
    { rewrite forallb_app, Hb, (proj1 (lstrip_nil s) Hl). reflexivity. }
    rewrite (lstrip_blank _ Hs). reflexivity.
  - rewrite lstrip_app_solid by (rewrite Hl; discriminate).
    rewrite Hl. apply rstrip_app_blank. exact Hb.
Qed.

(** ** Every way through the AI Doctor view *)

Lemma py_get_message (d : list (str * pyval)) :
  py_get (PyDict d) "message" (PyStr []) = ret (message_of d).
Proof.
  unfold py_get, message_of. destruct (dict_lookup d (lit "message")); reflexivity.
Qed.

Lemma get_error_fits (v : pyval) :
  slice_to 100 (exn_str (AttributeError v "get")) = exn_str (AttributeError v "get").
Proof. destruct v; reflexivity. Qed.

(** The outer [try] on an object: the message is fetched and trimmed. *)
Lemma ai_doctor_try_object (w : world) (d : list (str * pyval)) :
  request_get_json w = Return (PyDict d) ->
  d <> [] ->
  ai_doctor_try w =
  after [GetJson]
    (user_input <- py_strip (message_of d) ;;
     if negb (truthy (PyStr user_input))
     then ret (jsonify [ ("error", PyStr (lit "Message cannot be empty")) ], 400%Z)
     else
       match model (module_globals w) with
       | None =>
           ret (jsonify [ ("error", PyStr (lit "AI model not initialized. Check your API key and try restarting."));
                          ("success", PyBool false) ], 500%Z)
       | Some m =>
           logger INFO (lit "Processing query: " ++ slice_to 50 user_input ++ lit "...") ;;;
           try_except (completion_try w m user_input) completion_except
       end).
Proof.
  intros Hj Hd. unfold ai_doctor_try, call.
  rewrite Hj, bind_return, (truthy_dict_cons d Hd). cbn [negb].
  rewrite py_get_message, bind_ret. reflexivity.
Qed.

(** The inner [try] and its handler, case by case. *)
Lemma completion_block_cases (w : world) (m : GenerativeModel) (u : str) :
  (exists r t,
     generate_content m (full_message u) generation_config = Return (Some r)
     /\ text r = Return t /\ t <> []
     /\ try_except (completion_try w m u) completion_except
        = (Return (jsonify [ ("success", PyBool true);
                             ("response", PyStr t);
                             ("timestamp", PyStr (datetime_now_isoformat w)) ], 200%Z),
           [ Generate (full_message u) generation_config;
             Log INFO (check_mark ++ lit " Successfully generated response from Gemini") ]))
  \/ ((generate_content m (full_message u) generation_config = Return None
       \/ exists r, generate_content m (full_message u) generation_config = Return (Some r)
                    /\ text r = Return [])
      /\ try_except (completion_try w m u) completion_except
         = (Return (jsonify [ ("error", PyStr (lit "AI model returned empty response. Try again."));
                              ("success", PyBool false) ], 500%Z),
            [ Generate (full_message u) generation_config;
              Log ERROR (lit "Model returned empty response") ]))
  \/ (exists e,
        (generate_content m (full_message u) generation_config = Raise e
         \/ exists r, generate_content m (full_message u) generation_config = Return (Some r)
                      /\ text r = Raise e)
        /\ try_except (completion_try w m u) completion_except
           = (Return (jsonify [ ("error", PyStr (lit "API Error: " ++ slice_to 100 (exn_str e)));
                                ("success", PyBool false) ], 500%Z),
              [ Generate (full_message u) generation_config;
                Log ERROR (lit "Gemini API error: " ++ exn_str e) ])).
Proof.
  unfold completion_try, call.
  destruct (generate_content m (full_message u) generation_config) as [[r|]|e] eqn:Hg.
  - rewrite bind_return. unfold eval. destruct (text r) as [t|e] eqn:Ht.
    + rewrite bind_return. destruct t as [|c t].
      * right. left. split; [right; exists r; split; [reflexivity | exact Ht]|]. reflexivity.
      * left. exists r, (c :: t). repeat split; [exact Ht | discriminate].
    + right. right. exists e. split; [right; exists r; split; [reflexivity | exact Ht]|].
      reflexivity.
  - right. left. split; [left; reflexivity|]. reflexivity.
  - right. right. exists e. split; [left; reflexivity|]. reflexivity.
Qed.

(** A request that is not a preflight is answered along one of the
    paths. *)
Lemma ai_doctor_follows_a_path (w : world) :
  str_eqb (request_method w) (lit "OPTIONS") = false -> ai_doctor_path w (ai_doctor w).
Proof.
  intros Hm. unfold ai_doctor. rewrite Hm.
  destruct (request_get_json w) as [v|e] eqn:Hj.
  2:{ rewrite (ai_doctor_try_parser_raises w e Hj), try_except_raise.
      apply path_parser_error. exact Hj. }
  destruct (truthy v) eqn:Hv.
  2:{ rewrite (ai_doctor_try_no_data w v Hj Hv). exact (path_no_data w v Hj Hv). }
  assert (Hobj : (forall d, v <> PyDict d) \/ exists d, v = PyDict d /\ d <> []).
  { destruct v; try (left; intros; discriminate).
    right. exists items. split; [reflexivity|]. intros ->. discriminate. }
  destruct Hobj as [Hno | [d [-> Hd]]].
  - assert (Hr : ai_doctor_try w = (Raise (AttributeError v "get"), [GetJson])).
    { unfold ai_doctor_try, call. rewrite Hj, bind_return, Hv. cbn [negb].
      destruct v; try reflexivity. exfalso. apply (Hno items). reflexivity. }
    rewrite Hr, try_except_raise. unfold ai_doctor_except, logger, emit.
    rewrite bind_return, get_error_fits. exact (path_not_an_object w v Hj Hv Hno).
  - rewrite (ai_doctor_try_object w d Hj Hd).
    assert (Hstr : (forall s, message_of d <> PyStr s) \/ exists s, message_of d = PyStr s).
    { destruct (message_of d); try (left; intros; discriminate). right. eexists. reflexivity. }
    destruct Hstr as [Hno | [s Hs]].
    + assert (Hr : py_strip (message_of d) = raise (AttributeError (message_of d) "strip")).
      { destruct (message_of d); try reflexivity. exfalso. apply (Hno s). reflexivity. }
      rewrite Hr. unfold raise. rewrite bind_raise. unfold after at 1. cbn [fst snd app].
      rewrite try_except_raise. unfold ai_doctor_except, logger, emit.
      rewrite bind_return, strip_error_fits.
      exact (path_not_a_string w d (message_of d) Hj Hd eq_refl Hno).
    + rewrite Hs. unfold py_strip. rewrite bind_ret.
      destruct (strip s) as [|c u] eqn:Hu.
      * exact (path_blank w d s Hj Hd Hs Hu).
      * cbn [truthy negb]. rewrite <- Hu.
        assert (Hne : strip s <> []) by (rewrite Hu; discriminate).
        destruct (model (module_globals w)) as [m|] eqn:Hmod.
        2:{ exact (path_no_model w d s Hj Hs Hne Hmod). }
        unfold logger, emit. rewrite bind_return.
        destruct (completion_block_cases w m (strip s))
          as [[r [t [Hg [Ht [Hnt Hrun]]]]] | [[Hg Hrun] | [e [Hg Hrun]]]];
          rewrite Hrun.
        -- exact (path_success w d s m r t Hj Hs Hne Hmod Hg Ht Hnt).
        -- exact (path_empty w d s m Hj Hs Hne Hmod Hg).
        -- exact (path_api_error w d s m e Hj Hs Hne Hmod Hg).
Qed.

Lemma post_follows_a_path (w : world) :
  request_method w = lit "POST" -> ai_doctor_path w (ai_doctor w).
Proof.
  intros Hm. apply ai_doctor_follows_a_path. rewrite Hm. reflexivity.
Qed.

Lemma message_of_lookup (d : list (str * pyval)) (v : pyval) :
  dict_lookup d (lit "message") = Some v -> message_of d = v.
Proof. unfold message_of. intros ->. reflexivity. Qed.

(** A non-blank message is a field of the object, not the default. *)
Lemma message_of_solid (d : list (str * pyval)) (s : str) :
  message_of d = PyStr s -> strip s <> [] -> dict_lookup d (lit "message") = Some (PyStr s).
Proof.
  unfold message_of. destruct (dict_lookup d (lit "message")) as [v|].
  - intros ->. reflexivity.
  - intros H. injection H as <-. intros Hs. exfalso. apply Hs. reflexivity.
Qed.

(** X1. Every POST request is answered in one of three shapes: 200 with
    [success: true], a non-empty response text and no error field; 400
    with an error text and no success field; 500 with [success: false]
    and an error text of at most 114 characters. No exception leaves
    the view. *)
Theorem post_answer_shape (w : world) :
  request_method w = lit "POST" ->
  exists body status,
    fst (ai_doctor w) = Return (body, status)
    /\ ((status = 200%Z
         /\ field body "success" = Some (PyBool true)
         /\ field body "error" = None
         /\ exists t, t <> [] /\ field body "response" = Some (PyStr t))
        \/ (status = 400%Z
            /\ field body "success" = None
            /\ exists msg, field body "error" = Some (PyStr msg))
        \/ (status = 500%Z
            /\ field body "success" = Some (PyBool false)
            /\ exists msg, field body "error" = Some (PyStr msg)
                           /\ List.length msg <= 114)).
Proof.
  intros Hm. destruct (post_follows_a_path w Hm); eexists; eexists;
    (split; [reflexivity|]).
  - right. left. repeat split. eexists. reflexivity.
  - right. left. repeat split. eexists. reflexivity.
  - right. right. repeat split. eexists. split; [reflexivity|]. vm_compute. lia.
  - left. repeat split. exists t. split; [assumption | reflexivity].
  - right. right. repeat split. eexists. split; [reflexivity|]. vm_compute. lia.
  - right. right. repeat split. eexists. split; [reflexivity|].
    rewrite length_app, slice_to_length. change (List.length (lit "API Error: ")) with 11. lia.
  - right. right. repeat split. eexists. split; [reflexivity|].
    rewrite length_app, slice_to_length. change (List.length (lit "Server error: ")) with 14. lia.
  - right. right. repeat split. eexists. split; [reflexivity|].
    destruct v; vm_compute; lia.
  - right. right. repeat split. eexists. split; [reflexivity|].
    destruct v; vm_compute; lia.
Qed.

Lemma post_answer_shape_witness :
  exists body status,
    fst (ai_doctor (sample_request "POST" (with_model answering_model)
                      (message_body (PyStr (lit "fever")))))
    = Return (body, status)
    /\ ((status = 200%Z
         /\ field body "success" = Some (PyBool true)
         /\ field body "error" = None
         /\ exists t, t <> [] /\ field body "response" = Some (PyStr t))
        \/ (status = 400%Z
            /\ field body "success" = None
            /\ exists msg, field body "error" = Some (PyStr msg))
        \/ (status = 500%Z
            /\ field body "success" = Some (PyBool false)
            /\ exists msg, field body "error" = Some (PyStr msg)
                           /\ List.length msg <= 114)).
Proof.
  apply (post_answer_shape (sample_request "POST" (with_model answering_model)
                              (message_body (PyStr (lit "fever"))))).
  reflexivity.
Defined.

(** X2. A POST request is answered 200 only if its body is an object
    whose message is a string that is non-empty once trimmed, a model
    handle is set, and the completion call on the prompt built from the
    trimmed message returned non-empty text; the body is then
    [success: true] with that text and the timestamp. *)
Theorem success_only_from_completion (w : world) (body : pyval) :
  request_method w = lit "POST" ->
  fst (ai_doctor w) = Return (body, 200%Z) ->
  exists d s m r t,
    request_get_json w = Return (PyDict d)
    /\ dict_lookup d (lit "message") = Some (PyStr s)
    /\ strip s <> []
    /\ model (module_globals w) = Some m
    /\ generate_content m (full_message (strip s)) generation_config = Return (Some r)
    /\ text r = Return t
    /\ t <> []
    /\ body = jsonify [ ("success", PyBool true);
                        ("response", PyStr t);
                        ("timestamp", PyStr (datetime_now_isoformat w)) ].
Proof.
  intros Hm. pose proof (post_follows_a_path w Hm) as P. revert P.
  generalize (ai_doctor w). intros a P H. destruct P; cbn [fst] in H; try discriminate.
  injection H as <-.
  exists d, s, m, r, t. repeat split; try assumption.
  apply message_of_solid; assumption.
Qed.

Lemma success_only_from_completion_witness :
  exists d s m r t,
    message_body (PyStr (lit "fever")) = Return (PyDict d)
    /\ dict_lookup d (lit "message") = Some (PyStr s)
    /\ strip s <> []
    /\ Some answering_model = Some m
    /\ generate_content m (full_message (strip s)) generation_config = Return (Some r)
    /\ text r = Return t
    /\ t <> []
    /\ jsonify [ ("success", PyBool true);
                 ("response", PyStr sample_reply);
                 ("timestamp", PyStr (lit "2025-01-01T12:00:00.000000")) ]
       = jsonify [ ("success", PyBool true);
                   ("response", PyStr t);
                   ("timestamp", PyStr (lit "2025-01-01T12:00:00.000000")) ].
Proof.
  apply (success_only_from_completion
           (sample_request "POST" (with_model answering_model)
              (message_body (PyStr (lit "fever"))))
           (jsonify [ ("success", PyBool true);
                      ("response", PyStr sample_reply);
                      ("timestamp", PyStr (lit "2025-01-01T12:00:00.000000")) ])).
  - reflexivity.
  - vm_compute. reflexivity.
Defined.

(** X3. Whatever the request, the view calls the completion API at most
    once; when it does, the body is an object whose message is a
    non-blank string, a model handle is set, and the call carries the
    prompt of the trimmed message with the fixed generation
    parameters. *)
Theorem completion_called_at_most_once (w : world) :
  generate_calls (snd (ai_doctor w)) = []
  \/ exists d s m,
       request_get_json w = Return (PyDict d)
       /\ dict_lookup d (lit "message") = Some (PyStr s)
       /\ strip s <> []
       /\ model (module_globals w) = Some m
       /\ generate_calls (snd (ai_doctor w)) = [ (full_message (strip s), generation_config) ].
Proof.
  destruct (str_eqb (request_method w) (lit "OPTIONS")) eqn:Hm.
  - left. unfold ai_doctor. rewrite Hm. reflexivity.
  - destruct (ai_doctor_follows_a_path w Hm); try (left; reflexivity);
      right; exists d, s, m; repeat split; try assumption;
      apply message_of_solid; assumption.
Qed.

(** X4. A 400 answer depends on the parser's result only: if a POST
    request is answered 400, any POST request with the same parser
    result gets the same answer, whatever the model handle, the key and
    the clock, and neither request does anything but call the
    parser. *)
Theorem rejections_ignore_the_model (w w' : world) (body : pyval) :
  request_method w = lit "POST" ->
  request_method w' = lit "POST" ->
  request_get_json w' = request_get_json w ->
  fst (ai_doctor w) = Return (body, 400%Z) ->
  ai_doctor w' = (Return (body, 400%Z), [GetJson])
  /\ ai_doctor w = (Return (body, 400%Z), [GetJson]).
Proof.
  intros Hm Hm' Hj'.
  pose proof (post_follows_a_path w Hm) as P.
  rewrite (ai_doctor_post w' Hm').
  revert P. generalize (ai_doctor w). intros a P H.
  destruct P as [v Hj Hv | d s Hj Hd Hs Hblank | | | | | | | ];
    cbn [fst] in H; try discriminate; injection H as <-.
  - rewrite Hj in Hj'. rewrite (ai_doctor_try_no_data w' v Hj' Hv). split; reflexivity.
  - rewrite Hj in Hj'. rewrite (ai_doctor_try_object w' d Hj' Hd), Hs.
    unfold py_strip. rewrite bind_ret, Hblank. split; reflexivity.
Qed.

Lemma rejections_ignore_the_model_witness :
  ai_doctor (sample_request "POST" (with_model answering_model) (message_body (PyStr (lit " "))))
  = (Return (jsonify [ ("error", PyStr (lit "Message cannot be empty")) ], 400%Z), [GetJson])
  /\ ai_doctor (sample_request "POST" no_model (message_body (PyStr (lit " "))))
     = (Return (jsonify [ ("error", PyStr (lit "Message cannot be empty")) ], 400%Z), [GetJson]).
Proof.
  apply (rejections_ignore_the_model
           (sample_request "POST" no_model (message_body (PyStr (lit " "))))
           (sample_request "POST" (with_model answering_model) (message_body (PyStr (lit " "))))).
  - reflexivity.
  - reflexivity.
  - reflexivity.
  - reflexivity.
Defined.

(** X5. On a valid POST request with a model handle, a completion call
    that returns [None], or a result whose text is empty, is answered
    500 "AI model returned empty response. Try again." and logged as an
    error, after exactly one call. *)
Theorem empty_completion_is_500 (w : world) (d : list (str * pyval)) (s : str)
        (m : GenerativeModel) :
  request_method w = lit "POST" ->
  request_get_json w = Return (PyDict d) ->
  dict_lookup d (lit "message") = Some (PyStr s) ->
  strip s <> [] ->
  model (module_globals w) = Some m ->
  generate_content m (full_message (strip s)) generation_config = Return None
  \/ (exists r, generate_content m (full_message (strip s)) generation_config = Return (Some r)
                /\ text r = Return []) ->
  ai_doctor w
  = (Return (jsonify [ ("error", PyStr (lit "AI model returned empty response. Try again."));
                       ("success", PyBool false) ], 500%Z),
     [ GetJson;
       Log INFO (lit "Processing query: " ++ slice_to 50 (strip s) ++ lit "...");
       Generate (full_message (strip s)) generation_config;
       Log ERROR (lit "Model returned empty response") ]).
Proof.
  intros Hm Hj Hl Hs Hmod Hg.
  rewrite (ai_doctor_post w Hm), (ai_doctor_try_valid w d s Hj Hl Hs), Hmod.
  destruct (completion_block_cases w m (strip s))
    as [[r [t [Hg' [Ht [Hnt _]]]]] | [[_ Hrun] | [e [Hg' _]]]].
  - exfalso. destruct Hg as [Hg | [r' [Hg Ht']]]; rewrite Hg in Hg'; [discriminate|].
    injection Hg' as <-. rewrite Ht' in Ht. injection Ht as <-. apply Hnt. reflexivity.
  - rewrite Hrun. reflexivity.
  - exfalso. destruct Hg as [Hg | [r' [Hg Ht']]], Hg' as [Hg' | [r'' [Hg' Ht'']]];
      rewrite Hg in Hg'; try discriminate.
    injection Hg' as <-. rewrite Ht' in Ht''. discriminate.
Qed.

Lemma empty_completion_is_500_witness :
  fst (ai_doctor (sample_request "POST" (with_model (sample_model (Return None)))
                    (message_body (PyStr (lit "fever")))))
  = Return (jsonify [ ("error", PyStr (lit "AI model returned empty response. Try again."));
                      ("success", PyBool false) ], 500%Z).
Proof.
  rewrite (empty_completion_is_500 _ [ (lit "message", PyStr (lit "fever")) ] (lit "fever")
             (sample_model (Return None))).
  - reflexivity.
  - reflexivity.
  - reflexivity.
  - reflexivity.
  - vm_compute. discriminate.
  - reflexivity.
  - left. reflexivity.
Defined.

(** X6. A POST request whose JSON document is truthy but not an object (a
    non-empty list or string, a non-zero number, [true]) is answered
    500 "Server error: '<type>' object has no attribute 'get'": the
    lookup of the message raises and the outer handler catches it. *)
Theorem non_object_body_is_500 (w : world) (v : pyval) :
  request_method w = lit "POST" ->
  request_get_json w = Return v ->
  truthy v = true ->
  (forall d, v <> PyDict d) ->
  ai_doctor w
  = (Return (jsonify [ ("error", PyStr (lit "Server error: " ++ lit "'" ++ type_name v
                                        ++ lit "' object has no attribute 'get'"));
                       ("success", PyBool false) ], 500%Z),
     [ GetJson;
       Log ERROR (lit "Error in ai_doctor endpoint: " ++ lit "'" ++ type_name v
                  ++ lit "' object has no attribute 'get'") ]).
Proof.
  intros Hm Hj Hv Hno. rewrite (ai_doctor_post w Hm).
  assert (Hr : ai_doctor_try w = (Raise (AttributeError v "get"), [GetJson])).
  { unfold ai_doctor_try, call. rewrite Hj, bind_return, Hv. cbn [negb].
    destruct v; try reflexivity. exfalso. apply (Hno items). reflexivity. }
  rewrite Hr, try_except_raise. unfold ai_doctor_except, logger, emit.
  rewrite bind_return, get_error_fits. reflexivity.
Qed.

Lemma non_object_body_is_500_witness :
  ai_doctor (sample_request "POST" (with_model answering_model) (Return (PyList [PyInt 1])))
  = (Return (jsonify [ ("error", PyStr (lit "Server error: 'list' object has no attribute 'get'"));
                       ("success", PyBool false) ], 500%Z),
     [ GetJson;
       Log ERROR (lit "Error in ai_doctor endpoint: 'list' object has no attribute 'get'") ]).
Proof.
  apply (non_object_body_is_500 _ (PyList [PyInt 1])).
  - reflexivity.
  - reflexivity.
  - reflexivity.
  - discriminate.
Defined.

(** X7. For a POST request whose object holds a string message, the
    answer is 400 "Message cannot be empty" exactly when the message
    consists of whitespace only (the empty string included). *)
Theorem message_rejected_iff_blank (w : world) (d : list (str * pyval)) (s : str) :
  request_method w = lit "POST" ->
  request_get_json w = Return (PyDict d) ->
  dict_lookup d (lit "message") = Some (PyStr s) ->
  (fst (ai_doctor w)
   = Return (jsonify [ ("error", PyStr (lit "Message cannot be empty")) ], 400%Z)
   <-> forallb is_whitespace s = true).
Proof.
  intros Hm Hj Hl.
  assert (Hd : d <> []) by (intros ->; discriminate).
  rewrite (ai_doctor_post w Hm), (ai_doctor_try_object w d Hj Hd), (message_of_lookup d _ Hl).
  unfold py_strip. rewrite bind_ret, <- strip_nil.
  destruct (strip s) as [|c u] eqn:Hu.
  - split; reflexivity.
  - split; [|discriminate]. cbn [truthy negb]. intros H. exfalso.
    destruct (model (module_globals w)) as [m|].
    + unfold logger, emit in H. rewrite bind_return, try_except_after in H.
      unfold after at 1 in H. cbn [fst snd] in H.
      destruct (completion_block_cases w m (c :: u))
        as [[r [t [_ [_ [_ Hrun]]]]] | [[_ Hrun] | [e [_ Hrun]]]];
        rewrite Hrun in H; cbn in H; discriminate.
    + cbn in H. discriminate.
Qed.

Lemma message_rejected_iff_blank_witness :
  fst (ai_doctor (sample_request "POST" (with_model answering_model)
                    (message_body (PyStr (lit "fever")))))
  = Return (jsonify [ ("error", PyStr (lit "Message cannot be empty")) ], 400%Z)
  <-> forallb is_whitespace (lit "fever") = true.
Proof.
  apply (message_rejected_iff_blank _ [ (lit "message", PyStr (lit "fever")) ]).
  - reflexivity.
  - reflexivity.
  - reflexivity.
Defined.

(** A POST request whose object holds a string message is rejected as
    blank, or answered without a model, or leads to one completion call
    on the prompt of the trimmed message. *)
Lemma string_message_cases (w : world) (d : list (str * pyval)) (s : str) :
  request_method w = lit "POST" ->
  request_get_json w = Return (PyDict d) ->
  dict_lookup d (lit "message") = Some (PyStr s) ->
  (strip s = []
   /\ ai_doctor w
      = (Return (jsonify [ ("error", PyStr (lit "Message cannot be empty")) ], 400%Z),
         [GetJson]))
  \/ (strip s <> [] /\ model (module_globals w) = None
      /\ ai_doctor w
         = (Return (jsonify [ ("error", PyStr (lit "AI model not initialized. Check your API key and try restarting."));
                              ("success", PyBool false) ], 500%Z), [GetJson]))
  \/ (strip s <> [] /\ model (module_globals w) <> None
      /\ generate_calls (snd (ai_doctor w)) = [ (full_message (strip s), generation_config) ]).
Proof.
  intros Hm Hj Hl.
  assert (Hd : d <> []) by (intros ->; discriminate).
  rewrite (ai_doctor_post w Hm), (ai_doctor_try_object w d Hj Hd), (message_of_lookup d _ Hl).
  unfold py_strip. rewrite bind_ret.
  destruct (strip s) as [|c u] eqn:Hu.
  - left. split; reflexivity.
  - right. cbn [truthy negb].
    destruct (model (module_globals w)) as [m|].
    + right. split; [discriminate|]. split; [discriminate|].
      unfold logger, emit. rewrite bind_return, try_except_after.
      destruct (completion_block_cases w m (c :: u))
        as [[r [t [_ [_ [_ Hrun]]]]] | [[_ Hrun] | [e [_ Hrun]]]];
        rewrite Hrun; reflexivity.
    + left. split; [discriminate|]. split; reflexivity.
Qed.

(** X8. Whitespace around the message changes neither the validation
    nor the prompt: of two POST requests whose messages differ only by
    whitespace added at both ends, each with a model handle or each
    without, either both send the same single prompt upstream or
    neither sends one, and when none is sent both get the same answer.
    The model handles, and what they reply, may differ. *)
Theorem surrounding_whitespace_same_prompt (w w' : world) (d d' : list (str * pyval))
        (a s b : str) :
  request_method w = lit "POST" ->
  request_method w' = lit "POST" ->
  request_get_json w = Return (PyDict d) ->
  request_get_json w' = Return (PyDict d') ->
  dict_lookup d (lit "message") = Some (PyStr s) ->
  dict_lookup d' (lit "message") = Some (PyStr (a ++ s ++ b)) ->
  forallb is_whitespace a = true ->
  forallb is_whitespace b = true ->
  (model (module_globals w') = None <-> model (module_globals w) = None) ->
  generate_calls (snd (ai_doctor w')) = generate_calls (snd (ai_doctor w))
  /\ (generate_calls (snd (ai_doctor w)) = [] -> ai_doctor w' = ai_doctor w).
Proof.
  intros Hm Hm' Hj Hj' Hl Hl' Ha Hb Hmod.
  pose proof (string_message_cases w d s Hm Hj Hl) as C.
  pose proof (string_message_cases w' d' (a ++ s ++ b) Hm' Hj' Hl') as C'.
  rewrite (strip_pad a s b Ha Hb) in C'.
  destruct C as [[Hs Hr] | [[Hs [Hn Hr]] | [Hs [Hn Hr]]]];
    destruct C' as [[Hs' Hr'] | [[Hs' [Hn' Hr']] | [Hs' [Hn' Hr']]]];
    try contradiction;
    try (exfalso; apply Hn; apply Hmod; exact Hn');
    try (exfalso; apply Hn'; apply Hmod; exact Hn).
  - rewrite Hr, Hr'. split; reflexivity.
  - rewrite Hr, Hr'. split; reflexivity.
  - rewrite Hr, Hr'. split; [reflexivity | discriminate].
Qed.

Lemma surrounding_whitespace_same_prompt_witness :
  generate_calls
    (snd (ai_doctor (sample_request "POST" (with_model (sample_model (Return None)))
                       (message_body (PyStr (lit "  " ++ lit "fever" ++ newline))))))
  = generate_calls
      (snd (ai_doctor (sample_request "POST" (with_model answering_model)
                         (message_body (PyStr (lit "fever"))))))
  /\ (generate_calls
        (snd (ai_doctor (sample_request "POST" (with_model answering_model)
                           (message_body (PyStr (lit "fever")))))) = [] ->
      ai_doctor (sample_request "POST" (with_model (sample_model (Return None)))
                   (message_body (PyStr (lit "  " ++ lit "fever" ++ newline))))
      = ai_doctor (sample_request "POST" (with_model answering_model)
                     (message_body (PyStr (lit "fever"))))).
Proof.
  apply (surrounding_whitespace_same_prompt _ _
           [ (lit "message", PyStr (lit "fever")) ]
           [ (lit "message", PyStr (lit "  " ++ lit "fever" ++ newline)) ]
           (lit "  ") (lit "fever") newline).
  - reflexivity.
  - reflexivity.
  - reflexivity.
  - reflexivity.
  - reflexivity.
  - reflexivity.
  - reflexivity.
  - reflexivity.
  - split; discriminate.
Defined.

(** X9. Every prompt that reaches the SDK is the system prompt, a blank
    line, "User Symptom: " followed by the message without its
    surrounding whitespace (never empty, no whitespace at either end), a
    blank line and the closing instruction; the generation parameters
    are the fixed ones. *)
Theorem prompt_carries_the_trimmed_message (w : world) (prompt : str) (cfg : GenerationConfig) :
  In (Generate prompt cfg) (snd (ai_doctor w)) ->
  exists d s a u b,
    request_get_json w = Return (PyDict d)
    /\ dict_lookup d (lit "message") = Some (PyStr s)
    /\ s = a ++ u ++ b
    /\ forallb is_whitespace a = true
    /\ forallb is_whitespace b = true
    /\ u <> []
    /\ (forall c r, u = c :: r -> is_whitespace c = false)
    /\ (forall r c, u = r ++ [c] -> is_whitespace c = false)
    /\ prompt = system_prompt ++ newline ++ newline ++ lit "User Symptom: " ++ u
                ++ newline ++ newline
                ++ lit "Provide response in the exact format above. Be VERY BRIEF and CONCISE."
    /\ cfg = generation_config.
Proof.
  intros Hin.
  assert (Hcase : exists d s,
             request_get_json w = Return (PyDict d)
             /\ dict_lookup d (lit "message") = Some (PyStr s)
             /\ strip s <> []
             /\ prompt = full_message (strip s) /\ cfg = generation_config).
  { destruct (str_eqb (request_method w) (lit "OPTIONS")) eqn:Hm.
    - exfalso. unfold ai_doctor in Hin. rewrite Hm in Hin. exact Hin.
    - pose proof (ai_doctor_follows_a_path w Hm) as P. revert P Hin.
      generalize (ai_doctor w). intros x P Hin.
      destruct P; cbn [snd] in Hin;
        repeat (destruct Hin as [Hin | Hin]; try discriminate); try contradiction;
        injection Hin as <- <-; exists d, s; repeat split; try assumption;
        apply message_of_solid; assumption. }
  destruct Hcase as [d [s [Hj [Hl [Hs [-> ->]]]]]].
  destruct (strip_split s) as [a [b [Hsplit [Ha Hb]]]].
  exists d, s, a, (strip s), b. repeat split; try assumption.
  - intros c r. apply strip_first.
  - intros r c. apply strip_last.
Qed.

Lemma prompt_carries_the_trimmed_message_witness :
  exists d s a u b,
    message_body (PyStr (lit " headache ")) = Return (PyDict d)
    /\ dict_lookup d (lit "message") = Some (PyStr s)
    /\ s = a ++ u ++ b
    /\ forallb is_whitespace a = true
    /\ forallb is_whitespace b = true
    /\ u <> []
    /\ (forall c r, u = c :: r -> is_whitespace c = false)
    /\ (forall r c, u = r ++ [c] -> is_whitespace c = false)
    /\ full_message (lit "headache")
       = system_prompt ++ newline ++ newline ++ lit "User Symptom: " ++ u
         ++ newline ++ newline
         ++ lit "Provide response in the exact format above. Be VERY BRIEF and CONCISE."
    /\ generation_config = generation_config.
Proof.
  apply (prompt_carries_the_trimmed_message
           (sample_request "POST" (with_model answering_model)
              (message_body (PyStr (lit " headache "))))
           (full_message (lit "headache")) generation_config).
  vm_compute. right. right. left. reflexivity.
Defined.

(** X10. The prompt determines the user input: two inputs with the same
    prompt are equal. *)
Theorem full_message_injective (u u' : str) : full_message u = full_message u' -> u = u'.
Proof.
  unfold full_message. intros H.
  repeat (apply app_inv_head in H).
  apply app_inv_tail in H. exact H.
Qed.

Lemma full_message_injective_witness : lit "fever" = lit "fever".
Proof.
  apply (full_message_injective (lit "fever") (lit "fever")). reflexivity.
Defined.

(** X11. Every INFO line the view logs has at most 71 characters: of the
    user's message only the first 50 characters of its trimmed text are
    logged at that level. *)
Theorem info_log_lines_are_short (w : world) (msg : str) :
  In (Log INFO msg) (snd (ai_doctor w)) -> List.length msg <= 71.
Proof.
  intros Hin.
  destruct (str_eqb (request_method w) (lit "OPTIONS")) eqn:Hm.
  - exfalso. unfold ai_doctor in Hin. rewrite Hm in Hin. exact Hin.
  - pose proof (ai_doctor_follows_a_path w Hm) as P. revert P Hin.
    generalize (ai_doctor w). intros x P Hin.
    assert (Hq : forall u : str,
               List.length (lit "Processing query: " ++ slice_to 50 u ++ lit "...") <= 71).
    { intros u. rewrite !length_app, slice_to_length.
      change (List.length (lit "Processing query: ")) with 18.
      change (List.length (lit "...")) with 3. lia. }
    destruct P; cbn [snd] in Hin;
      repeat (destruct Hin as [Hin | Hin]; try discriminate); try contradiction;
      injection Hin as <-; try apply Hq; vm_compute; lia.
Qed.

Lemma info_log_lines_are_short_witness :
  List.length (lit "Processing query: headache...") <= 71.
Proof.
  apply (info_log_lines_are_short
           (sample_request "POST" (with_model answering_model)
              (message_body (PyStr (lit " headache "))))).
  vm_compute. right. left. reflexivity.
Defined.

(** X12. On a POST request, an exception that leaves the body of the
    outer [try] is logged at ERROR level with its whole text after
    "Error in ai_doctor endpoint: ", and one that leaves the inner
    [try] with its whole text after "Gemini API error: ". *)
Theorem exceptions_are_logged_in_full (w : world) (e : exn) :
  request_method w = lit "POST" ->
  (fst (ai_doctor_try w) = Raise e ->
     In (Log ERROR (lit "Error in ai_doctor endpoint: " ++ exn_str e)) (snd (ai_doctor w)))
  /\ (forall d s m,
        request_get_json w = Return (PyDict d) ->
        dict_lookup d (lit "message") = Some (PyStr s) ->
        strip s <> [] ->
        model (module_globals w) = Some m ->
        fst (completion_try w m (strip s)) = Raise e ->
        In (Log ERROR (lit "Gemini API error: " ++ exn_str e)) (snd (ai_doctor w))).
Proof.
  intros Hm. rewrite (ai_doctor_post w Hm). split.
  - intros Hr. destruct (ai_doctor_try w) as [r t]. cbn [fst] in Hr. subst r.
    rewrite try_except_raise. unfold ai_doctor_except, logger, emit.
    rewrite bind_return. unfold after. cbn [fst snd].
    apply in_or_app. right. left. reflexivity.
  - intros d s m Hj Hl Hs Hmod Hr.
    rewrite (ai_doctor_try_valid w d s Hj Hl Hs), Hmod, try_except_after.
    destruct (completion_try w m (strip s)) as [r t]. cbn [fst] in Hr. subst r.
    rewrite try_except_raise. unfold completion_except, logger, emit.
    rewrite bind_return. unfold after, ret, try_except. cbn [fst snd app].
    right. right. apply in_or_app. right. left. reflexivity.
Qed.

Lemma exceptions_are_logged_in_full_witness :
  In (Log ERROR (lit "Gemini API error: " ++ exn_str long_error))
     (snd (ai_doctor (sample_request "POST" (with_model (sample_model (Raise long_error)))
                        (message_body (PyStr (lit "fever")))))).
Proof.
  apply (proj2 (exceptions_are_logged_in_full
                  (sample_request "POST" (with_model (sample_model (Raise long_error)))
                     (message_body (PyStr (lit "fever"))))
                  long_error eq_refl)
           [ (lit "message", PyStr (lit "fever")) ] (lit "fever")
           (sample_model (Raise long_error))).
  - reflexivity.
  - reflexivity.
  - vm_compute. discriminate.
  - reflexivity.
  - reflexivity.
Defined.

(** ** Health check and start-up, further *)


Lemma attempted_app (t t' : list event) : attempted (t ++ t') = attempted t ++ attempted t'.
Proof.
  induction t as [|ev t IH]; [reflexivity|].
  destruct ev; simpl; rewrite IH; reflexivity.
Qed.

Lemma configured_keys_app (t t' : list event) :
  configured_keys (t ++ t') = configured_keys t ++ configured_keys t'.
Proof.
  induction t as [|ev t IH]; [reflexivity|].
  destruct ev; simpl; rewrite IH; reflexivity.
Qed.

(** The loop on a list of names all refused: every name is attempted,
    in order, and no model results. *)
Lemma try_models_all_refused (os : os_environ) (names : list str) :
  Forall (raises_on os) names ->
  exists t, try_models os names = (Return None, t)
            /\ attempted t = names /\ configured_keys t = [].
Proof.
  induction 1 as [|name rest [e He] _ [t [Hrun [Hatt Hcfg]]]].
  - exists []. repeat split.
  - eexists. split.
    + rewrite (try_models_cons_fail os name rest e He), Hrun. reflexivity.
    + cbn [snd attempted configured_keys app]. rewrite Hatt, Hcfg. split; reflexivity.
Qed.

(** The loop stops at the first name the constructor accepts. *)
Lemma try_models_first_accepted (os : os_environ) (pre : list str) (name : str)
      (post : list str) (h : GenerativeModel) :
  Forall (raises_on os) pre ->
  genai_GenerativeModel os name = Return h ->
  exists t, try_models os (pre ++ name :: post) = (Return (Some h), t)
            /\ attempted t = pre ++ [name] /\ configured_keys t = [].
Proof.
  intros Hpre Hh. induction Hpre as [|x pre [e He] _ [t [Hrun [Hatt Hcfg]]]].
  - eexists. split; [apply try_models_cons_ok; exact Hh|]. split; reflexivity.
  - eexists. split.
    + cbn [app]. rewrite (try_models_cons_fail os x _ e He), Hrun. reflexivity.
    + cbn [snd attempted configured_keys app]. rewrite Hatt, Hcfg. split; reflexivity.
Qed.

Lemma configure_gemini_trace (k : option str) :
  attempted (snd (configure_gemini k)) = []
  /\ configured_keys (snd (configure_gemini k))
     = match k with
       | Some (c :: key) => [c :: key]
       | _ => []
       end.
Proof. destruct k as [[|c key]|]; split; reflexivity. Qed.

(** X14. When the constructor refuses the candidates before some name
    and accepts that name, start-up keeps the model it returned and has
    attempted exactly the names up to it, in order: later candidates are
    never tried. *)
Theorem startup_takes_first_accepted (os : os_environ) (pre : list str) (name : str)
        (post : list str) (h : GenerativeModel) :
  models_to_try = pre ++ name :: post ->
  Forall (raises_on os) pre ->
  genai_GenerativeModel os name = Return h ->
  fst (startup os)
  = Return {| GEMINI_API_KEY := getenv_GEMINI_API_KEY os; model := Some h |}
  /\ attempted (snd (startup os)) = pre ++ [name].
Proof.
  intros Heq Hpre Hh.
  destruct (try_models_first_accepted os pre name post h Hpre Hh) as [t [Hrun [Hatt _]]].
  rewrite <- Heq in Hrun. rewrite (startup_returns os (Some h) t Hrun). cbn [fst snd].
  split; [reflexivity|].
  rewrite !attempted_app, (proj1 (configure_gemini_trace _)), Hatt, app_nil_r. reflexivity.
Qed.

Lemma startup_takes_first_accepted_witness :
  fst (startup fallback_environ)
  = Return {| GEMINI_API_KEY := Some (lit "AIza-sample-key"); model := Some answering_model |}
  /\ attempted (snd (startup fallback_environ))
     = [ lit "gemini-2.0-flash-exp"; lit "gemini-1.5-pro"; lit "gemini-1.5-flash" ].
Proof.
  apply (startup_takes_first_accepted fallback_environ
           [ lit "gemini-2.0-flash-exp"; lit "gemini-1.5-pro" ]
           (lit "gemini-1.5-flash") [ lit "gemini-pro" ] answering_model).
  - reflexivity.
  - repeat constructor; eexists; reflexivity.
  - reflexivity.
Defined.

(** X15. When the constructor refuses every candidate, start-up leaves
    the model unset, has attempted all four names in order, and its last
    log line is the error "No available models found!". *)
Theorem startup_all_refused (os : os_environ) :
  Forall (raises_on os) models_to_try ->
  exists t,
    startup os
    = (Return {| GEMINI_API_KEY := getenv_GEMINI_API_KEY os; model := None |},
       t ++ [ Log ERROR (lit "No available models found!") ])
    /\ attempted (snd (startup os)) = models_to_try.
Proof.
  intros Hall.
  destruct (try_models_all_refused os models_to_try Hall) as [t [Hrun [Hatt _]]].
  rewrite (startup_returns os None t Hrun). cbn [fst snd].
  exists (snd (configure_gemini (getenv_GEMINI_API_KEY os)) ++ t). split.
  - rewrite app_assoc. reflexivity.
  - rewrite !attempted_app, (proj1 (configure_gemini_trace _)), Hatt. reflexivity.
Qed.

Lemma startup_all_refused_witness :
  exists t,
    startup empty_key_environ
    = (Return {| GEMINI_API_KEY := Some []; model := None |},
       t ++ [ Log ERROR (lit "No available models found!") ])
    /\ attempted (snd (startup empty_key_environ)) = models_to_try.
Proof.
  apply (startup_all_refused empty_key_environ).
  repeat constructor; eexists; reflexivity.
Defined.

(** X16. Start-up configures the client exactly once, with the key of
    the environment, when that key is a non-empty string, and not at
    all otherwise; when it does, the call is the first effect of the
    process, before any model is attempted. *)
Theorem startup_configures_once_and_first (os : os_environ) :
  configured_keys (snd (startup os))
  = match getenv_GEMINI_API_KEY os with
    | Some (c :: key) => [c :: key]
    | _ => []
    end
  /\ (forall c key, getenv_GEMINI_API_KEY os = Some (c :: key) ->
        exists t, snd (startup os)
                  = Configure (c :: key)
                    :: Log INFO (lit "Gemini API configured successfully") :: t
                  /\ configured_keys t = []).
Proof.
  destruct (try_models_returns os models_to_try) as [m [t [Hrun [_ Hm]]]].
  assert (Hcfg : configured_keys t = []).
  { destruct m as [h|].
    - destruct Hm as [pre [name [post [Heq [Hpre Hh]]]]].
      destruct (try_models_first_accepted os pre name post h Hpre Hh) as [t' [Hrun' [_ Hc]]].
      rewrite <- Heq, Hrun in Hrun'. injection Hrun' as <-. exact Hc.
    - destruct (try_models_all_refused os models_to_try Hm) as [t' [Hrun' [_ Hc]]].
      rewrite Hrun in Hrun'. injection Hrun' as <-. exact Hc. }
  assert (Htail : configured_keys
                    (t ++ match m with
                          | Some _ => []
                          | None => [ Log ERROR (lit "No available models found!") ]
                          end) = []).
  { rewrite configured_keys_app, Hcfg. destruct m; reflexivity. }
  rewrite (startup_returns os m t Hrun). cbn [snd]. split.
  - rewrite configured_keys_app, Htail, app_nil_r. apply configure_gemini_trace.
  - intros c key Hkey. rewrite Hkey. eexists. split; [reflexivity | exact Htail].
Qed.

(** X17. After start-up, the health check reports [gemini_configured]
    as the presence of the environment variable: it is false exactly
    when the variable is absent, whatever became of the model. *)
Theorem health_reflects_key_presence (os : os_environ) (g : globals) (w : world) :
  fst (startup os) = Return g ->
  module_globals w = g ->
  exists name,
    fst (health_check w)
    = Return (jsonify [ ("status", PyStr (lit "ok"));
                        ("timestamp", PyStr (datetime_now_isoformat w));
                        ("gemini_configured",
                         PyBool (is_not_None (getenv_GEMINI_API_KEY os)));
                        ("model", PyStr name) ], 200%Z)
    /\ (is_not_None (getenv_GEMINI_API_KEY os) = false <-> getenv_GEMINI_API_KEY os = None).
Proof.
  intros Hs Hw.
  destruct (try_models_returns os models_to_try) as [m [t [Hrun _]]].
  rewrite (startup_returns os m t Hrun) in Hs. cbn [fst] in Hs. injection Hs as <-.
  unfold health_check. rewrite Hw. cbn [model GEMINI_API_KEY].
  assert (Hname : exists name,
             fst (match m with
                  | Some m0 => describe_model m0
                  | None => ret (lit "Unknown")
                  end) = Return name
             /\ snd (match m with
                     | Some m0 => describe_model m0
                     | None => ret (lit "Unknown")
                     end) = []).
  { destruct m as [h|]; [|eexists; split; reflexivity].
    unfold describe_model, eval.
    destruct (model_name h) as [[n|e]|]; try (eexists; split; reflexivity).
    destruct (model_str h); eexists; split; reflexivity. }
  destruct Hname as [name [Hf Hsn]]. exists name. split.
  - destruct (match m with Some _ => _ | None => _ end) as [r tr].
    cbn [fst snd] in Hf, Hsn. subst r tr. reflexivity.
  - destruct (getenv_GEMINI_API_KEY os); cbn [is_not_None]; split; intros H;
      try discriminate; reflexivity.
Qed.

Lemma health_reflects_key_presence_witness :
  exists name,
    fst (health_check (sample_request "GET" no_model (Return PyNone)))
    = Return (jsonify [ ("status", PyStr (lit "ok"));
                        ("timestamp", PyStr (lit "2025-01-01T12:00:00.000000"));
                        ("gemini_configured", PyBool false);
                        ("model", PyStr name) ], 200%Z)
    /\ (false = false <-> @None str = None).
Proof.
  apply (health_reflects_key_presence
           {| getenv_GEMINI_API_KEY := None;
              genai_GenerativeModel := genai_GenerativeModel empty_key_environ |}
           no_model (sample_request "GET" no_model (Return PyNone))).
  - vm_compute. reflexivity.
  - reflexivity.
Defined.

(** X18. When the constructor refused every candidate at start-up,
    every valid POST request of that process is answered 500 with the
    "AI model not initialized" message and no completion call is
    made. *)
Theorem no_model_after_failed_startup (os : os_environ) (g : globals) (w : world)
        (d : list (str * pyval)) (s : str) :
  Forall (raises_on os) models_to_try ->
  fst (startup os) = Return g ->
  module_globals w = g ->
  request_method w = lit "POST" ->
  request_get_json w = Return (PyDict d) ->
  dict_lookup d (lit "message") = Some (PyStr s) ->
  strip s <> [] ->
  ai_doctor w
  = (Return (jsonify [ ("error", PyStr (lit "AI model not initialized. Check your API key and try restarting."));
                       ("success", PyBool false) ], 500%Z), [GetJson]).
Proof.
  intros Hall Hst Hw Hm Hj Hl Hs.
  destruct (try_models_all_refused os models_to_try Hall) as [t [Hrun _]].
  rewrite (startup_returns os None t Hrun) in Hst. cbn [fst] in Hst. injection Hst as <-.
  rewrite (ai_doctor_post w Hm), (ai_doctor_try_valid w d s Hj Hl Hs), Hw.
  reflexivity.
Qed.

Lemma no_model_after_failed_startup_witness :
  ai_doctor (sample_request "POST" {| GEMINI_API_KEY := Some []; model := None |}
               (message_body (PyStr (lit "fever"))))
  = (Return (jsonify [ ("error", PyStr (lit "AI model not initialized. Check your API key and try restarting."));
                       ("success", PyBool false) ], 500%Z), [GetJson]).
Proof.
  apply (no_model_after_failed_startup empty_key_environ
           {| GEMINI_API_KEY := Some []; model := None |} _
           [ (lit "message", PyStr (lit "fever")) ] (lit "fever")).
  - repeat constructor; eexists; reflexivity.
  - vm_compute. reflexivity.
  - reflexivity.
  - reflexivity.
  - reflexivity.
  - reflexivity.
  - vm_compute. discriminate.
Defined.

(** X19. The model that answers is the first one accepted at start-up:
    when its completion call on the prompt returns non-empty text, a
    valid POST request of that process is answered 200 with that
    text. *)
Theorem completion_goes_to_first_accepted (os : os_environ) (pre : list str) (name : str)
        (post : list str) (h : GenerativeModel) (g : globals) (w : world)
        (d : list (str * pyval)) (s : str) (r : GenerateContentResponse) (t : str) :
  models_to_try = pre ++ name :: post ->
  Forall (raises_on os) pre ->
  genai_GenerativeModel os name = Return h ->
  fst (startup os) = Return g ->
  module_globals w = g ->
  request_method w = lit "POST" ->
  request_get_json w = Return (PyDict d) ->
  dict_lookup d (lit "message") = Some (PyStr s) ->
  strip s <> [] ->
  generate_content h (full_message (strip s)) generation_config = Return (Some r) ->
  text r = Return t ->
  t <> [] ->
  fst (ai_doctor w)
  = Return (jsonify [ ("success", PyBool true);
                      ("response", PyStr t);
                      ("timestamp", PyStr (datetime_now_isoformat w)) ], 200%Z).
Proof.
  intros Heq Hpre Hh Hst Hw Hm Hj Hl Hs Hg Ht Hne.
  destruct (try_models_first_accepted os pre name post h Hpre Hh) as [t0 [Hrun _]].
  rewrite <- Heq in Hrun.
  rewrite (startup_returns os (Some h) t0 Hrun) in Hst. cbn [fst] in Hst. injection Hst as <-.
  rewrite (ai_doctor_post w Hm), (ai_doctor_try_valid w d s Hj Hl Hs), Hw. cbn [model].
  rewrite (completion_try_text w h (strip s) r t Hg Ht Hne). reflexivity.
Qed.

Lemma completion_goes_to_first_accepted_witness :
  fst (ai_doctor (sample_request "POST" (with_model answering_model)
                    (message_body (PyStr (lit "fever")))))
  = Return (jsonify [ ("success", PyBool true);
                      ("response", PyStr sample_reply);
                      ("timestamp", PyStr (lit "2025-01-01T12:00:00.000000")) ], 200%Z).
Proof.
  apply (completion_goes_to_first_accepted fallback_environ
           [ lit "gemini-2.0-flash-exp"; lit "gemini-1.5-pro" ]
           (lit "gemini-1.5-flash") [ lit "gemini-pro" ] answering_model
           (with_model answering_model)
           (sample_request "POST" (with_model answering_model)
              (message_body (PyStr (lit "fever"))))
           [ (lit "message", PyStr (lit "fever")) ] (lit "fever")
           {| text := Return sample_reply |} sample_reply).
  - reflexivity.
  - repeat constructor; eexists; reflexivity.
  - reflexivity.
  - vm_compute. reflexivity.
  - reflexivity.
  - reflexivity.
  - reflexivity.
  - reflexivity.
  - vm_compute. discriminate.
  - reflexivity.
  - reflexivity.
  - vm_compute. discriminate.
Defined.

Lemma try_models_logs_refusals (os : os_environ) (names : list str) (name : str) (e : exn) :
  In name (attempted (snd (try_models os names))) ->
  genai_GenerativeModel os name = Raise e ->
  In (Log WARNING (lit "Model " ++ name ++ lit " not available: "
                   ++ slice_to 100 (exn_str e)))
     (snd (try_models os names)).
Proof.
  intros Hin He. induction names as [|x rest IH]; [contradiction|].
  destruct (genai_GenerativeModel os x) as [h|e'] eqn:Hx.
  - rewrite (try_models_cons_ok os x rest h Hx) in Hin. cbn in Hin.
    destruct Hin as [-> | []]. congruence.
  - rewrite (try_models_cons_fail os x rest e' Hx) in *. unfold after in *.
    cbn [snd attempted app] in Hin. cbn [snd app].
    destruct Hin as [-> | Hin].
    + rewrite He in Hx. injection Hx as <-. right. right. left. reflexivity.
    + right. right. right. apply IH. exact Hin.
Qed.

(** X20. Every candidate that start-up attempted and the constructor
    refused is logged as a warning naming the model, with the first 100
    characters of the error text at most. *)
Theorem startup_logs_refusals (os : os_environ) (name : str) (e : exn) :
  In name (attempted (snd (startup os))) ->
  genai_GenerativeModel os name = Raise e ->
  In (Log WARNING (lit "Model " ++ name ++ lit " not available: "
                   ++ slice_to 100 (exn_str e)))
     (snd (startup os))
  /\ List.length (slice_to 100 (exn_str e)) <= 100.
Proof.
  intros Hin He. split; [|rewrite slice_to_length; lia].
  destruct (try_models_returns os models_to_try) as [m [t [Hrun _]]].
  rewrite (startup_returns os m t Hrun) in *. cbn [snd] in *.
  rewrite !attempted_app, (proj1 (configure_gemini_trace _)) in Hin. cbn [app] in Hin.
  apply in_or_app. right. apply in_or_app. left.
  pose proof (try_models_logs_refusals os models_to_try name e) as H.
  rewrite Hrun in H. cbn [snd] in H. apply H; [|exact He].
  apply in_app_or in Hin. destruct Hin as [Hin | Hin]; [exact Hin|].
  destruct m; contradiction.
Qed.

Lemma startup_logs_refusals_witness :
  In (Log WARNING (lit "Model gemini-1.5-pro not available: 404 model not found"))
     (snd (startup fallback_environ))
  /\ List.length (slice_to 100 (lit "404 model not found")) <= 100.
Proof.
  apply (startup_logs_refusals fallback_environ (lit "gemini-1.5-pro")
           (Exception "NotFound" (lit "404 model not found"))).
  - vm_compute. right. left. reflexivity.
  - reflexivity.
Defined.

(** X21. In every environment start-up attempts a non-empty prefix of
    the candidate list: the names are tried in the order of the list,
    none is skipped or tried twice, and the first is always tried. *)
Theorem startup_attempts_a_prefix (os : os_environ) :
  exists rest,
    models_to_try = attempted (snd (startup os)) ++ rest
    /\ attempted (snd (startup os)) <> [].
Proof.
  destruct (try_models_returns os models_to_try) as [m [t [Hrun [_ Hm]]]].
  rewrite (startup_returns os m t Hrun). cbn [snd].
  rewrite !attempted_app, (proj1 (configure_gemini_trace _)). cbn [app].
  destruct m as [h|].
  - destruct Hm as [pre [name [post [Heq [Hpre Hh]]]]].
    destruct (try_models_first_accepted os pre name post h Hpre Hh) as [t' [Hrun' [Hatt _]]].
    rewrite <- Heq, Hrun in Hrun'. injection Hrun' as <-.
    rewrite app_nil_r, Hatt, Heq. exists post. split.
    + rewrite <- app_assoc. reflexivity.
    + destruct pre; discriminate.
  - destruct (try_models_all_refused os models_to_try Hm) as [t' [Hrun' [Hatt _]]].
    rewrite Hrun in Hrun'. injection Hrun' as <-.
    cbn [attempted]. rewrite app_nil_r, Hatt. exists []. split.
    + rewrite app_nil_r. reflexivity.
    + discriminate.
Qed.
